(** * Contacts backend: tokens, credentials and contact CRUD

    A shallow embedding of the authentication and contact handlers of the
    repository (src/routes, src/auth_files, src/repository, src/services),
    with the properties the specification states about them.

    Conventions of the embedding:
    - a Python function that may raise returns a [result]; a function that
      works on a SQLAlchemy session is a computation of the monad [M], whose
      state is the session;
    - a function is called through a [callable]: the body of a plain
      function runs when it is called, the body of a coroutine function
      when the call is awaited, and [await] on what a plain function
      returned raises TypeError once that function has run;
    - a point in time ([datetime]) is an integer count of seconds; the
      instant of a request is the parameter [now];
    - python-jose and passlib are outside the repository; their
      cryptography is idealised (a signature verifies exactly under the key
      that produced it, a bcrypt digest matches exactly the secret it was
      computed from), their checks of the claims and of the shape of a hash
      are followed as the libraries make them. *)

From stdpp Require Import gmap strings pretty list fin_maps.
From Stdlib Require Import Ascii ZArith Lia.

Local Open Scope string_scope.
Local Open Scope Z_scope.

(** ** Values, tokens, digests *)

(** A JSON value of a token payload: null, a string or an integer. *)
Inductive value :=
| VNone
| VStr (s : string)
| VInt (n : Z).

Global Instance value_eq_dec : EqDecision value.
Proof. solve_decision. Defined.

(** A payload is a Python dict from claim names to values. *)
Abbreviation Payload := (gmap string value).

(** A bearer string: either a compact JWS, abstracted to its header
    algorithm, the key its signature was computed with and its claims, or
    any other string. *)
Inductive Token :=
| Jws (alg : string) (key : string) (claims : Payload)
| Opaque (raw : string).

Global Instance Token_eq_dec : EqDecision Token.
Proof. solve_decision. Defined.

(** The content of a password column: a well-formed bcrypt digest, of
    [secret] under [salt], or any other string. *)
Inductive digest :=
| Bcrypt (salt : string) (secret : string)
| Plain (raw : string).

Global Instance digest_eq_dec : EqDecision digest.
Proof. solve_decision. Defined.

(** ** Exceptions and results *)

Abbreviation Headers := (list (string * string)).

(** The exception classes the handlers meet. [JWTError] stands for the
    class and its subclasses (ExpiredSignatureError, JWTClaimsError),
    [ValueError] for the class without passlib's [UnknownHashError], which
    has a constructor of its own, [Exception] for the base class raised as
    such; every constructor but [HTTPException] carries its message. *)
Inductive exn :=
| JWTError (msg : string)
| JWSError (msg : string)
| JWKError (msg : string)
| KeyError (key : string)
| AttributeError (msg : string)
| TypeError (msg : string)
| ValueError (msg : string)
| UnknownHashError (msg : string)
| OverflowError (msg : string)
| IntegrityError (msg : string)
| RequestValidationError (msg : string)
| Exception (msg : string)
| HTTPException (status_code : Z) (detail : string) (headers : Headers).

Global Instance exn_eq_dec : EqDecision exn.
Proof. solve_decision. Defined.

Inductive result (A : Type) :=
| Return (a : A)
| Raise (e : exn).
Arguments Return {A} a.
Arguments Raise {A} e.

Global Instance result_ret : MRet result := λ A a, Return a.
Global Instance result_bind : MBind result := λ A B f m,
  match m with
  | Return a => f a
  | Raise e => Raise e
  end.

(** [isinstance(e, JWTError)] *)
Definition is_JWTError (e : exn) : bool :=
  match e with
  | JWTError _ => true
  | _ => false
  end.

(** [isinstance(e, ValueError)]; UnknownHashError is a subclass. *)
Definition is_ValueError (e : exn) : bool :=
  match e with
  | ValueError _ | UnknownHashError _ => true
  | _ => false
  end.

(** [try: body except <class>: handler], for the exceptions [catches]
    selects; any other exception propagates. *)
Definition try_except {A} (body : result A) (catches : exn → bool)
    (handler : exn → result A) : result A :=
  match body with
  | Return a => Return a
  | Raise e => if catches e then handler e else Raise e
  end.

(** [str(e)]: the message; Starlette prints an HTTPException as
    "<status_code>: <detail>". *)
Definition str (e : exn) : string :=
  match e with
  | JWTError m | JWSError m | JWKError m | AttributeError m | TypeError m
  | ValueError m | UnknownHashError m | OverflowError m | IntegrityError m
  | RequestValidationError m | Exception m => m
  | KeyError k => "'" +:+ k +:+ "'"
  | HTTPException s d _ => pretty s +:+ ": " +:+ d
  end.

(** The status of the response FastAPI sends when a request raises: the
    status of an HTTPException, 422 for a parameter that fails its
    validation, 500 for any other exception. *)
Definition response_status (e : exn) : Z :=
  match e with
  | HTTPException s _ _ => s
  | RequestValidationError _ => 422
  | _ => 500
  end.

(** status.HTTP_* *)
Definition HTTP_200_OK : Z := 200.
Definition HTTP_201_CREATED : Z := 201.
Definition HTTP_204_NO_CONTENT : Z := 204.
Definition HTTP_400_BAD_REQUEST : Z := 400.
Definition HTTP_401_UNAUTHORIZED : Z := 401.
Definition HTTP_404_NOT_FOUND : Z := 404.
Definition HTTP_409_CONFLICT : Z := 409.
Definition HTTP_422_UNPROCESSABLE_ENTITY : Z := 422.

(** ** Python's [int] *)

(** [str.isspace] on an ASCII character *)
Definition isspace (c : ascii) : bool :=
  let n := N_of_ascii c in
  ((9 <=? n) && (n <=? 13) || (28 <=? n) && (n <=? 32))%N.

Fixpoint lstrip (s : string) : string :=
  match s with
  | String c s' => if isspace c then lstrip s' else s
  | EmptyString => EmptyString
  end.

(** [s.strip()] *)
Definition strip (s : string) : string :=
  String.rev (lstrip (String.rev (lstrip s))).

(** Decimal digits, with single underscores between digits. [after_digit]
    tells whether the character before was a digit. *)
Fixpoint digits (acc : Z) (after_digit : bool) (s : string) : option Z :=
  match s with
  | EmptyString => if after_digit then Some acc else None
  | String c s' =>
      match Ascii.is_nat c with
      | Some d => digits (10 * acc + Z.of_nat d) true s'
      | None =>
          if bool_decide (c = "_"%char) && after_digit
          then digits acc false s'
          else None
      end
  end.

(** The integer an ASCII string denotes for [int(s)]: surrounding
    whitespace, an optional sign, decimal digits. *)
Definition int_of_string (s : string) : option Z :=
  match strip s with
  | String "+" s' => digits 0 false s'
  | String "-" s' => Z.opp <$> digits 0 false s'
  | s' => digits 0 false s'
  end.

(** [int(v)] on a JSON value *)
Definition python_int (v : value) : result Z :=
  match v with
  | VInt n => Return n
  | VStr s =>
      match int_of_string s with
      | Some n => Return n
      | None =>
          Raise (ValueError ("invalid literal for int() with base 10: '"
                             +:+ s +:+ "'"))
      end
  | VNone =>
      Raise (TypeError "int() argument must be a string, a bytes-like object or a real number, not 'NoneType'")
  end.

(** ** python-jose *)

(** The algorithms a single shared secret string can be used with. *)
Definition SUPPORTED : list string := ["HS256"; "HS384"; "HS512"].

(** [jwt.encode(claims, key, algorithm=...)]. Time claims are stored as the
    integer timestamps jose converts datetimes to. *)
Definition jwt_encode (claims : Payload) (key : string) (algorithm : string)
    : result Token :=
  if bool_decide (algorithm ∈ SUPPORTED)
  then Return (Jws algorithm key claims)
  else Raise (JWSError "Algorithm not supported.").

(** The checks [jwt.decode] makes on the registered claims with its default
    options, in its order. A time claim is read with [int], whose
    ValueError alone is turned into a JWTClaimsError. *)
Definition validate_iat (claims : Payload) : result () :=
  match claims !! "iat" with
  | None => Return ()
  | Some iat =>
      try_except (_ ← python_int iat; Return ()) is_ValueError
        (λ _, Raise (JWTError "Issued At claim (iat) must be an integer."))
  end.

Definition validate_nbf (now : Z) (claims : Payload) : result () :=
  match claims !! "nbf" with
  | None => Return ()
  | Some nbf =>
      nbf ← try_except (python_int nbf) is_ValueError
               (λ _, Raise (JWTError "Not Before claim (nbf) must be an integer."));
      if now <? nbf then Raise (JWTError "The token is not yet valid (nbf)")
      else Return ()
  end.

Definition validate_exp (now : Z) (claims : Payload) : result () :=
  match claims !! "exp" with
  | None => Return ()
  | Some exp =>
      exp ← try_except (python_int exp) is_ValueError
               (λ _, Raise (JWTError "Expiration Time claim (exp) must be an integer."));
      if exp <? now then Raise (JWTError "Signature has expired.")
      else Return ()
  end.

(** The repository passes no [audience]: a token that names one is not
    for this reader. *)
Definition validate_aud (claims : Payload) : result () :=
  match claims !! "aud" with
  | None => Return ()
  | Some (VStr _) => Raise (JWTError "Invalid audience")
  | Some _ => Raise (JWTError "Invalid claim format in token")
  end.

Definition validate_sub (claims : Payload) : result () :=
  match claims !! "sub" with
  | None | Some (VStr _) => Return ()
  | Some _ => Raise (JWTError "Subject must be a string.")
  end.

Definition validate_jti (claims : Payload) : result () :=
  match claims !! "jti" with
  | None | Some (VStr _) => Return ()
  | Some _ => Raise (JWTError "JWT ID must be a string.")
  end.

(** The repository passes no [access_token] to compare the hash with. *)
Definition validate_at_hash (claims : Payload) : result () :=
  match claims !! "at_hash" with
  | None => Return ()
  | Some _ =>
      Raise (JWTError "No access_token provided to compare against at_hash claim.")
  end.

Definition validate_claims (now : Z) (claims : Payload) : result () :=
  _ ← validate_iat claims;
  _ ← validate_nbf now claims;
  _ ← validate_exp now claims;
  _ ← validate_aud claims;
  _ ← validate_sub claims;
  _ ← validate_jti claims;
  validate_at_hash claims.

(** [jwt.decode(token, key, algorithms=[...])] at time [now]: the header
    algorithm is among [algorithms], a key for it is built from [key],
    which fails with JWKError for an algorithm a secret string is no key
    of, the signature verifies under it, the claims pass their checks. *)
Definition jwt_decode (now : Z) (token : Token) (key : string)
    (algorithms : list string) : result Payload :=
  match token with
  | Opaque _ => Raise (JWTError "Not enough segments")
  | Jws alg k claims =>
      if negb (bool_decide (alg ∈ algorithms))
      then Raise (JWTError "The specified alg value is not allowed")
      else if negb (bool_decide (alg ∈ SUPPORTED))
      then Raise (JWKError "Unable to find an algorithm for key")
      else if negb (bool_decide (k = key))
      then Raise (JWTError "Signature verification failed.")
      else
        _ ← validate_claims now claims;
        Return claims
  end.

(** ** passlib *)

(** The prefixes by which the bcrypt scheme identifies a hash. *)
Definition bcrypt_idents : list string := ["$2$"; "$2a$"; "$2x$"; "$2y$"; "$2b$"].

Definition bcrypt_identify (hash : string) : bool :=
  existsb (λ ident, String.prefix ident hash) bcrypt_idents.

(** [CryptContext(schemes=["bcrypt"]).verify(secret, hash)]. A hash no
    scheme of the context identifies raises UnknownHashError; a string with
    a bcrypt prefix that is no well-formed digest makes the bcrypt handler
    raise ValueError. *)
Definition pwd_context_verify (secret : string) (hash : digest) : result bool :=
  match hash with
  | Bcrypt _ original => Return (bool_decide (secret = original))
  | Plain raw =>
      if bcrypt_identify raw then Raise (ValueError "malformed bcrypt hash")
      else Raise (UnknownHashError "hash could not be identified")
  end.

(** [CryptContext.hash(secret)] with the salt the library drew. *)
Definition pwd_context_hash (salt : string) (secret : string) : digest :=
  Bcrypt salt secret.

(** ** The relational store *)

(** Modelled from the spec: src/db/models.py is not part of the sources.
    Section 3 of the specification gives a User an id, an email, a password
    digest, a nullable refresh token, one boolean flag it calls
    is_verified/confirmed, and a nullable avatar; the handlers also read a
    username. The attribute names [hashed_password] and [password] both read
    [password], and [is_verified] and [confirmed] both read [confirmed]. *)
Module User.
Record t := mk {
  id : Z;
  username : option string;
  email : string;
  password : digest;
  refresh_token : option Token;
  confirmed : bool;
  avatar : option string
}.

Definition set_refresh_token (v : option Token) (u : t) : t :=
  mk (id u) (username u) (email u) (password u) v (confirmed u) (avatar u).
Definition set_confirmed (v : bool) (u : t) : t :=
  mk (id u) (username u) (email u) (password u) (refresh_token u) v (avatar u).
Definition set_avatar (v : option string) (u : t) : t :=
  mk (id u) (username u) (email u) (password u) (refresh_token u) (confirmed u) v.
End User.

Global Instance User_eq_dec : EqDecision User.t.
Proof. solve_decision. Defined.

(** Modelled from the spec: the Contact row of src/db/models.py, with the
    columns section 3 of the specification lists, which are those the
    handlers assign. The specification calls birth_date a calendar date;
    the handlers assign it the datetime of the request body and compare it
    with [datetime.today()], so the column holds a point in time, a calendar
    date being the point in time of its midnight. *)
Module Contact.
Record t := mk {
  id : Z;
  first_name : string;
  last_name : string;
  email : string;
  phone_number : string;
  birth_date : Z;
  additional_data : option string
}.
End Contact.

Global Instance Contact_eq_dec : EqDecision Contact.t.
Proof. solve_decision. Defined.

(** The User table in primary-key order and the Contact table by primary
    key. *)
Record Store := mkStore {
  users : list User.t;
  contacts : gmap Z Contact.t
}.

(** A SQLAlchemy session made with autoflush=False: the rows as last
    committed, the rows as the loaded objects now read, the objects added
    and not yet flushed, and the number of commits made. *)
Record Session := mkSession {
  committed : Store;
  working : Store;
  added_users : list User.t;
  added_contacts : list Contact.t;
  commits : nat
}.

(** [SessionLocal()] on a database. *)
Definition open_session (db : Store) : Session :=
  mkSession db db [] [] 0.

(** A computation on a session that may raise. *)
Definition M (A : Type) : Type := Session → result A * Session.

Global Instance M_ret : MRet M := λ A a s, (Return a, s).
Global Instance M_bind : MBind M := λ A B f m s,
  match m s with
  | (Return a, s') => f a s'
  | (Raise e, s') => (Raise e, s')
  end.

Definition raise {A} (e : exn) : M A := λ s, (Raise e, s).
Definition lift {A} (r : result A) : M A := λ s, (r, s).

(** [try: body except Exception as e: handler] on a session. *)
Definition try_except_M {A} (body : M A) (catches : exn → bool)
    (handler : exn → M A) : M A := λ s,
  match body s with
  | (Return a, s') => (Return a, s')
  | (Raise e, s') => if catches e then handler e s' else (Raise e, s')
  end.

(** [except Exception] *)
Definition any_Exception (e : exn) : bool := true.

(** A handler run as one request: the session is opened on the database,
    and closed afterwards, which drops what was not committed. *)
Definition run {A} (h : M A) (db : Store) : result A * Store :=
  let (r, s) := h (open_session db) in (r, committed s).

(** The next value of the autoincrement primary key. *)
Definition next_user_id (us : list User.t) : Z :=
  1 + foldr Z.max 0 (User.id <$> us).

(** SQLite stores an INTEGER in 64 bits, signed. *)
Definition INTEGER (n : Z) : bool := (- 2 ^ 63 <=? n) && (n <? 2 ^ 63).

(** The INSERTs of a flush: users take the next key; a contact whose key
    does not fit the column cannot be bound as a parameter, and one whose
    key is taken violates the primary-key constraint. *)
Fixpoint flush_users (new : list User.t) (us : list User.t) : list User.t :=
  match new with
  | [] => us
  | u :: new' =>
      flush_users new'
        (us ++ [User.mk (next_user_id us) (User.username u) (User.email u)
                  (User.password u) (User.refresh_token u) (User.confirmed u)
                  (User.avatar u)])
  end.

Fixpoint flush_contacts (new : list Contact.t) (cs : gmap Z Contact.t)
    : result (gmap Z Contact.t) :=
  match new with
  | [] => Return cs
  | c :: new' =>
      if negb (INTEGER (Contact.id c))
      then Raise (OverflowError "Python int too large to convert to SQLite INTEGER")
      else
        match cs !! Contact.id c with
        | Some _ => Raise (IntegrityError "UNIQUE constraint failed: contacts.id")
        | None => flush_contacts new' (<[Contact.id c := c]> cs)
        end
  end.

(** [session.commit()] *)
Definition commit : M () := λ s,
  match flush_contacts (added_contacts s) (contacts (working s)) with
  | Raise e => (Raise e, s)
  | Return cs =>
      let db := mkStore (flush_users (added_users s) (users (working s))) cs in
      (Return (), mkSession db db [] [] (S (commits s)))
  end.

(** [session.rollback()] *)
Definition rollback : M () := λ s,
  (Return (), mkSession (committed s) (committed s) [] [] (commits s)).

(** [session.add(obj)] *)
Definition add_user (u : User.t) : M () := λ s,
  (Return (), mkSession (committed s) (working s) (added_users s ++ [u])
                (added_contacts s) (commits s)).
Definition add_contact (c : Contact.t) : M () := λ s,
  (Return (), mkSession (committed s) (working s) (added_users s)
                (added_contacts s ++ [c]) (commits s)).

(** [session.query(User).filter(<condition>).first()] *)
Definition query_user_first (cond : User.t → bool) : M (option User.t) := λ s,
  (Return (List.find cond (users (working s))), s).

(** [session.query(Contact).get(id)], and
    [session.query(Contact).filter(Contact.id == id).first()] *)
Definition query_contact_get (id : Z) : M (option Contact.t) := λ s,
  (Return (contacts (working s) !! id), s).

(** [session.query(Contact).filter(<condition>).all()]. The queries of the
    repository have no ORDER BY; the rows come in the order the map lists
    them. *)
Definition query_contacts_all (cond : Contact.t → bool) : M (list Contact.t) := λ s,
  (Return (List.filter cond (map_to_list (contacts (working s))).*2), s).

(** [session.refresh(obj)] of the User just inserted: the object as its row
    now reads, key included. *)
Definition refresh_user (obj : User.t) : M User.t := λ s,
  (Return (default obj (last (users (working s)))), s).

(** An attribute assignment on a loaded User object, seen by the row of its
    primary key. *)
Definition assign_user (id : Z) (f : User.t → User.t) : M () := λ s,
  let us := (λ u, if bool_decide (User.id u = id) then f u else u)
              <$> users (working s) in
  (Return (), mkSession (committed s) (mkStore us (contacts (working s)))
                (added_users s) (added_contacts s) (commits s)).

(** Attribute assignments on a loaded Contact object. *)
Definition assign_contact (id : Z) (f : Contact.t → Contact.t) : M () := λ s,
  (Return (), mkSession (committed s)
                (mkStore (users (working s)) (alter f id (contacts (working s))))
                (added_users s) (added_contacts s) (commits s)).

(** [session.delete(obj)] of a loaded Contact. *)
Definition delete_row (id : Z) : M () := λ s,
  (Return (), mkSession (committed s)
                (mkStore (users (working s)) (delete id (contacts (working s))))
                (added_users s) (added_contacts s) (commits s)).

(** ** Calls and [await] *)

(** What a call of a function gives: a plain function ([def]) runs its
    body at the call, a coroutine function ([async def]) when the call is
    awaited. [C] is the kind of the body, a computation on the session or a
    result. *)
Inductive callable (C : Type) :=
| Def (body : C)
| AsyncDef (body : C).
Arguments Def {C} body.
Arguments AsyncDef {C} body.

(** [type(a).__name__] *)
Class PyType (A : Type) := type_name : A → string.

Global Instance unit_type : PyType () := λ _, "NoneType".
Global Instance value_type : PyType value := λ v,
  match v with
  | VNone => "NoneType"
  | VStr _ => "str"
  | VInt _ => "int"
  end.
Global Instance Token_type : PyType Token := λ _, "str".
Global Instance User_type : PyType User.t := λ _, "User".
Global Instance option_User_type : PyType (option User.t) := λ u,
  match u with
  | Some _ => "User"
  | None => "NoneType"
  end.

(** What [await] raises on an object that is no awaitable. *)
Definition not_awaitable {A} `{PyType A} (a : A) : exn :=
  TypeError ("object " +:+ type_name a +:+ " can't be used in 'await' expression").

(** [await f(...)] on a session: the body of a plain function has run, and
    had its effects, when the await rejects what it returned. *)
Definition await {A} `{PyType A} (call : callable (M A)) : M A :=
  match call with
  | AsyncDef body => body
  | Def body => a ← body; raise (not_awaitable a)
  end.

(** [await f(...)] for a function that is given no session. *)
Definition await_value {A} `{PyType A} (call : callable (result A)) : result A :=
  match call with
  | AsyncDef body => body
  | Def body => a ← body; Raise (not_awaitable a)
  end.

(** What reading an attribute an object does not have raises; [object] is
    how Python names the object in the message. *)
Definition no_attribute (object name : string) : exn :=
  AttributeError (object +:+ " has no attribute '" +:+ name +:+ "'").

(** ** Requests and responses *)

(** The object a handler finds in its session parameter: the request's
    session, which FastAPI injects or the caller passes on, or, when a
    function is called directly without that argument, the parameter's
    default value, the marker object [Depends(get_db)]. *)
Inductive session_arg :=
| Injected
| DependsDefault.

(** What reading [.query] on the session parameter gives. *)
Definition session_query (db : session_arg) : M () :=
  match db with
  | Injected => mret ()
  | DependsDefault => raise (AttributeError "'Depends' object has no attribute 'query'")
  end.

(** OAuth2PasswordRequestForm *)
Record Form := mkForm {
  form_username : string;
  form_password : string
}.

(** The pydantic model UserContact of the contact handlers. *)
Module UserContact.
Record t := mk {
  contact_id : Z;
  first_name : string;
  last_name : string;
  email : string;
  phone_number : string;
  birth_date : Z;
  additional_info : option string
}.
End UserContact.

(** The pydantic model UserModel of the signup of routes/auth.py. *)
Record UserModel := mkUserModel {
  um_username : string;
  um_email : string;
  um_password : string
}.

(** A value of a response dictionary. *)
Inductive field :=
| FStr (s : string)
| FInt (n : Z)
| FToken (t : Token)
| FUser (u : User.t).

(** What a handler returns: a dictionary, listed in the order the source
    writes its keys, or contact data. *)
Inductive response :=
| Dict (items : list (string * field))
| ContactRow (c : Contact.t)
| ContactRows (cs : list Contact.t)
| ContactBody (c : UserContact.t).

(** A call queued with [background_tasks.add_task(send_email, email,
    username, base_url)]. *)
Record Task := send_email_task {
  task_email : string;
  task_username : option string
}.

(** [timedelta(minutes=n)], [timedelta(days=n)] *)
Definition minutes (n : Z) : Z := n * 60.
Definition days (n : Z) : Z := n * 86400.

(** The exception every token and credential check of
    auth_procedures.py and routes/jwt.py builds. *)
Definition credentials_exception : exn :=
  HTTPException HTTP_401_UNAUTHORIZED "Invalid credentials"
    [("WWW-Authenticate", "Bearer")].

(** src/auth_files/auth_settings.py *)
Record Settings := mkSettings {
  SECRET_KEY : string;
  ALGORITHM : string
}.

(** [User.email == email] for a value taken from a payload *)
Definition email_is (email : value) (u : User.t) : bool :=
  bool_decide (VStr (User.email u) = email).

(** Reading an attribute of the result of [.first()] *)
Definition getattr {A} (name : string) (f : User.t → A) (user : option User.t)
    : result A :=
  match user with
  | Some u => Return (f u)
  | None =>
      Raise (AttributeError ("'NoneType' object has no attribute '" +:+ name +:+ "'"))
  end.

(** ** src/routes/jwt.py *)
Module routes_jwt.

Definition REFRESH_TOKEN_EXPIRE_DAYS : Z := 7.

(** A zero timedelta is false, as None is. *)
Definition create_access_token (cfg : Settings) (now : Z) (data : Payload)
    (expires_delta : option Z) : result Token :=
  let to_encode := data in
  let expire :=
    match expires_delta with
    | Some delta => if delta =? 0 then now + minutes 15 else now + delta
    | None => now + minutes 15
    end in
  let to_encode := <["exp" := VInt expire]> to_encode in
  jwt_encode to_encode (SECRET_KEY cfg) (ALGORITHM cfg).

(** The source writes "exp" into the caller's dictionary; no caller
    reads it afterwards. *)
Definition create_refresh_token (cfg : Settings) (now : Z) (data : Payload)
    : result Token :=
  let expire := now + days REFRESH_TOKEN_EXPIRE_DAYS in
  let data := <["exp" := VInt expire]> data in
  jwt_encode data (SECRET_KEY cfg) (ALGORITHM cfg).

Definition verify_token (cfg : Settings) (now : Z) (token : Token)
    : result Payload :=
  try_except
    (payload ← jwt_decode now token (SECRET_KEY cfg) [ALGORITHM cfg];
     Return payload)
    is_JWTError
    (λ _, Raise credentials_exception).

Definition update_user_avatar (user_id : Z) (avatar_url : string)
    (db : session_arg) : M () :=
  _ ← session_query db;
  user ← query_user_first (λ u, bool_decide (User.id u = user_id));
  match user with
  | Some u =>
      _ ← assign_user (User.id u) (User.set_avatar (Some avatar_url));
      commit
  | None => raise (HTTPException 404 "User not found" [])
  end.

End routes_jwt.

(** ** src/auth_files/auth_procedures.py *)
Module auth_procedures.

Definition ACCESS_TOKEN_EXPIRE_MINUTES : Z := 20.

Definition get_user (email password : string) (session : session_arg)
    : M (option User.t) :=
  _ ← session_query session;
  user ← query_user_first (λ u, bool_decide (User.email u = email));
  match user with
  | None => mret None
  | Some u =>
      ok ← lift (pwd_context_verify password (User.password u));
      if ok : bool then mret (Some u) else mret None
  end.

(** POST /token/. [get_user] is called with two arguments. *)
Definition login_for_access_token (cfg : Settings) (now : Z) (form_data : Form)
    : M response :=
  user ← get_user (form_username form_data) (form_password form_data)
           DependsDefault;
  match user with
  | None => raise credentials_exception
  | Some user =>
      let access_token_expires := minutes ACCESS_TOKEN_EXPIRE_MINUTES in
      let refresh_token_data : Payload := {[ "sub" := VStr (User.email user) ]} in
      access_token ← lift (routes_jwt.create_access_token cfg now
                       {[ "sub" := VStr (User.email user) ]}
                       (Some access_token_expires));
      refresh_token ← lift (routes_jwt.create_refresh_token cfg now
                        refresh_token_data);
      mret (Dict [("access_token", FToken access_token);
                  ("token_type", FStr "bearer");
                  ("refresh_token", FToken refresh_token)])
  end.

(** POST /token/refresh/. The handler has no session parameter. *)
Definition refresh_access_token (cfg : Settings) (now : Z)
    (current_token : Token) : result response :=
  sub ← try_except
    (payload ← routes_jwt.verify_token cfg now current_token;
     match payload !! "sub" with
     | None | Some VNone => Raise credentials_exception
     | Some sub => Return sub
     end)
    is_JWTError
    (λ _, Raise credentials_exception);
  let access_token_expires := minutes ACCESS_TOKEN_EXPIRE_MINUTES in
  refreshed_token ← routes_jwt.create_access_token cfg now
                      {[ "sub" := sub ]} (Some access_token_expires);
  Return (Dict [("access_token", FToken refreshed_token);
                ("token_type", FStr "bearer")]).

(** [payload["sub"]] raises KeyError when the key is missing; the
    HTTPException raised inside the try block is no JWTError and passes
    the except clause. *)
Definition get_current_user (cfg : Settings) (now : Z) (token : Token)
    : M User.t :=
  email ← lift (try_except
    (payload ← jwt_decode now token (SECRET_KEY cfg) [ALGORITHM cfg];
     match payload !! "sub" with
     | None => Raise (KeyError "sub")
     | Some VNone => Raise credentials_exception
     | Some email => Return email
     end)
    is_JWTError
    (λ _, Raise credentials_exception));
  user ← query_user_first (email_is email);
  match user with
  | None => raise credentials_exception
  | Some user => mret user
  end.

Definition get_active_user (current_user : option User.t) : result User.t :=
  match current_user with
  | None => Raise (HTTPException 400 "There is no active user" [])
  | Some current_user => Return current_user
  end.

Definition verify_user_email (cfg : Settings) (now : Z) (token : Token)
    : M response :=
  email ← lift (try_except
    (payload ← jwt_decode now token (SECRET_KEY cfg) [ALGORITHM cfg];
     match payload !! "sub" with
     | None => Raise (KeyError "sub")
     | Some VNone => Raise credentials_exception
     | Some email => Return email
     end)
    is_JWTError
    (λ _, Raise credentials_exception));
  user ← query_user_first (email_is email);
  match user with
  | None => raise credentials_exception
  | Some user =>
      _ ← (if negb (User.confirmed user)
           then _ ← assign_user (User.id user) (User.set_confirmed true);
                commit
           else mret ());
      mret (Dict [("message", FStr "Email verification successful!");
                  ("status_code", FInt HTTP_200_OK)])
  end.

(** The dependency [Depends(get_active_user)] of a contact handler,
    resolved on the request's bearer token. *)
Definition active_user (cfg : Settings) (now : Z) (token : Token) : M User.t :=
  current_user ← get_current_user cfg now token;
  lift (get_active_user (Some current_user)).

End auth_procedures.

(** ** src/services/email_token.py *)

(** The two attributes the module reads on the name [jwt]. *)
Record JwtApi := mkJwtApi {
  encode : option (Payload → string → string → result Token);
  decode : option (Z → Token → string → list string → result Payload)
}.

Module EmailTokenManager.

(** What [from src.routes import jwt] binds: the module src/routes/jwt.py,
    not python-jose's [jwt]. That module defines neither [encode] nor
    [decode]. *)
Definition jwt : JwtApi := mkJwtApi None None.

(** [jwt.<name>] *)
Definition jwt_attribute {A} (name : string) (attribute : option A) : result A :=
  match attribute with
  | Some a => Return a
  | None => Raise (no_attribute "module 'src.routes.jwt'" name)
  end.

Record t := __init__ {
  SECRET_KEY : string;
  ALGORITHM : string
}.

Definition create_email_token (self : t) (now : Z) (data : Payload)
    : result Token :=
  let to_encode := data in
  let expire := now + days 7 in
  let to_encode := <["exp" := VInt expire]> (<["iat" := VInt now]> to_encode) in
  encode ← jwt_attribute "encode" (encode jwt);
  encode to_encode (SECRET_KEY self) (ALGORITHM self).

Definition get_email_from_token (self : t) (now : Z) (token : Token)
    : result value :=
  try_except
    (decode ← jwt_attribute "decode" (decode jwt);
     payload ← decode now token (SECRET_KEY self) [ALGORITHM self];
     match payload !! "sub" with
     | None => Raise (KeyError "sub")
     | Some email => Return email
     end)
    is_JWTError
    (λ _, Raise (HTTPException HTTP_422_UNPROCESSABLE_ENTITY
                   "Invalid token for email verification" [])).

End EmailTokenManager.

(** ** src/repository/users.py *)
Module users.

Definition get_user_by_email (email : value) : M (option User.t) :=
  query_user_first (email_is email).

(** The Gravatar lookup is outside the repository: [avatar] is what it
    gave, None when it failed. A new row is unconfirmed and has no
    refresh token. *)
Definition create_user (body : UserModel) (password : digest)
    (avatar : option string) : M User.t :=
  let new_user :=
    User.mk 0 (Some (um_username body)) (um_email body) password None false
      avatar in
  _ ← add_user new_user;
  _ ← commit;
  refresh_user new_user.

Definition update_token (user : User.t) (token : option Token) : M () :=
  _ ← assign_user (User.id user) (User.set_refresh_token token);
  commit.

(** The body of the coroutine function [confirm_email]. It awaits what
    [get_user_by_email], a plain function, returned. *)
Definition confirm_email (email : value) : M () :=
  user ← await (Def (get_user_by_email email));
  id ← lift (getattr "confirmed" User.id user);
  _ ← assign_user id (User.set_confirmed true);
  commit.

(** The body of the coroutine function [update_avatar], with the same
    await; it returns the user object as the row reads after the commit. *)
Definition update_avatar (email : value) (url : string) : M (option User.t) :=
  user ← await (Def (get_user_by_email email));
  id ← lift (getattr "avatar" User.id user);
  _ ← assign_user id (User.set_avatar (Some url));
  _ ← commit;
  query_user_first (λ u, bool_decide (User.id u = id)).

End users.

(** ** src/routes/routes.py *)
Module routes.

Definition ACCESS_TOKEN_EXPIRE_MINUTES : Z := 20.

(** POST /signup. [salt] is the salt the hasher draws. *)
Definition signup (user_email user_password : string) (salt : string)
    : M response :=
  db_user ← query_user_first (λ u, bool_decide (User.email u = user_email));
  match db_user with
  | Some _ =>
      raise (HTTPException HTTP_409_CONFLICT
               "User with this email already exists" [])
  | None =>
      let hashed_password := pwd_context_hash salt user_password in
      let db_user := User.mk 0 None user_email hashed_password None false None in
      _ ← add_user db_user;
      _ ← commit;
      db_user ← refresh_user db_user;
      mret (Dict [("user", FUser db_user);
                  ("message", FStr "User signed up successfully!");
                  ("status_code", FInt HTTP_201_CREATED)])
  end.

(** POST /login *)
Definition login (cfg : Settings) (now : Z) (form_data : Form) : M response :=
  user ← auth_procedures.get_user (form_username form_data)
           (form_password form_data) Injected;
  match user with
  | None => raise credentials_exception
  | Some user =>
      let access_token_expires := minutes ACCESS_TOKEN_EXPIRE_MINUTES in
      let refresh_token_data : Payload := {[ "sub" := VStr (User.email user) ]} in
      access_token ← lift (routes_jwt.create_access_token cfg now
                       {[ "sub" := VStr (User.email user) ]}
                       (Some access_token_expires));
      refresh_token ← lift (routes_jwt.create_refresh_token cfg now
                        refresh_token_data);
      mret (Dict [("access_token", FToken access_token);
                  ("token_type", FStr "bearer");
                  ("refresh_token", FToken refresh_token);
                  ("message", FStr "User logged in successfully!");
                  ("status_code", FInt HTTP_200_OK)])
  end.

(** GET /secret *)
Definition read_secret (cfg : Settings) (now : Z) (token : Token) : M response :=
  current_user ← auth_procedures.get_current_user cfg now token;
  mret (Dict [("message", FStr "You have access to this secret information!");
              ("user_email", FStr (User.email current_user))]).

(** PUT /user/avatar. [cloudinary_response] is the outcome of the upload
    to the media host; [update_user_avatar] is called with two
    arguments. *)
Definition update_avatar (cfg : Settings) (now : Z) (token : Token)
    (avatar_url : string) (cloudinary_response : result (option string))
    : M response :=
  current_user ← auth_procedures.get_current_user cfg now token;
  updated_avatar_url ← lift cloudinary_response;
  _ ← routes_jwt.update_user_avatar (User.id current_user) avatar_url
        DependsDefault;
  mret (Dict [("message", FStr "Avatar updated successfully!");
              ("status_code", FInt HTTP_200_OK)]).

End routes.

(** ** src/routes/auth.py *)

(** The [auth_service] the handlers of routes/auth.py are given; its code
    is not part of the sources, so it is an interface. The handlers await
    the three calls that give a token or an email and use the two others as
    they return. *)
Class AuthService := {
  get_password_hash : string → digest;
  verify_password : string → digest → result bool;
  create_access_token : Payload → callable (result Token);
  create_refresh_token : Payload → callable (result Token);
  get_email_from_token : Token → callable (result value)
}.

(** The [repository_users] the handlers are given: an object, named
    [object] in Python's messages, with those of the four attributes the
    handlers read that it has. *)
Record UsersRepository := mkUsersRepository {
  object : string;
  get_user_by_email : option (value → callable (M (option User.t)));
  create_user :
    option (UserModel → digest → option string → callable (M User.t));
  update_token : option (User.t → option Token → callable (M ()));
  confirmed_email : option (value → callable (M ()))
}.

(** The module src/repository/users.py as that object: its three plain
    functions, and no [confirmed_email], which the module does not define
    (its function of that purpose is [confirm_email]). *)
Definition users_module : UsersRepository := {|
  object := "module 'src.repository.users'";
  get_user_by_email := Some (λ email, Def (users.get_user_by_email email));
  create_user :=
    Some (λ body password avatar, Def (users.create_user body password avatar));
  update_token := Some (λ user token, Def (users.update_token user token));
  confirmed_email := None
|}.

(** [repository_users.<name>]; the parameter defaults to None. *)
Definition repository_attribute {A} (repository_users : option UsersRepository)
    (name : string) (attribute : UsersRepository → option A) : result A :=
  match repository_users with
  | None => Raise (no_attribute "'NoneType' object" name)
  | Some repository =>
      match attribute repository with
      | Some a => Return a
      | None => Raise (no_attribute (object repository) name)
      end
  end.

(** [auth_service.<name>]; the parameter defaults to None. *)
Definition service_attribute {A} (auth_service : option AuthService)
    (name : string) (attribute : AuthService → A) : result A :=
  match auth_service with
  | None => Raise (no_attribute "'NoneType' object" name)
  | Some service => Return (attribute service)
  end.

Module auth.

(** POST /signup, with what the Gravatar lookup gave *)
Definition signup (body : UserModel) (avatar : option string)
    (repository_users : option UsersRepository)
    (auth_service : option AuthService) : M (response * list Task) :=
  get_user_by_email ← lift (repository_attribute repository_users
                              "get_user_by_email" get_user_by_email);
  exist_user ← await (get_user_by_email (VStr (um_email body)));
  match exist_user with
  | Some _ => raise (HTTPException HTTP_409_CONFLICT "Account already exists" [])
  | None =>
      get_password_hash ← lift (service_attribute auth_service
                                  "get_password_hash" (@get_password_hash));
      let password := get_password_hash (um_password body) in
      create_user ← lift (repository_attribute repository_users "create_user"
                            create_user);
      new_user ← await (create_user body password avatar);
      let background_tasks :=
        [send_email_task (User.email new_user) (User.username new_user)] in
      mret (Dict [("user", FUser new_user);
                  ("detail", FStr "User successfully created. Check your email for confirmation.")],
            background_tasks)
  end.

(** POST /login *)
Definition login (body : Form) (repository_users : option UsersRepository)
    (auth_service : option AuthService) : M response :=
  get_user_by_email ← lift (repository_attribute repository_users
                              "get_user_by_email" get_user_by_email);
  user ← await (get_user_by_email (VStr (form_username body)));
  match user with
  | None => raise (HTTPException HTTP_401_UNAUTHORIZED "Invalid email" [])
  | Some user =>
      if negb (User.confirmed user)
      then raise (HTTPException HTTP_401_UNAUTHORIZED "Email not confirmed" [])
      else
        verify_password ← lift (service_attribute auth_service
                                  "verify_password" (@verify_password));
        ok ← lift (verify_password (form_password body) (User.password user));
        if negb ok
        then raise (HTTPException HTTP_401_UNAUTHORIZED "Invalid password" [])
        else
          create_access_token ← lift (service_attribute auth_service
                                        "create_access_token"
                                        (@create_access_token));
          access_token ← lift (await_value (create_access_token
                                 {[ "sub" := VStr (User.email user) ]}));
          create_refresh_token ← lift (service_attribute auth_service
                                         "create_refresh_token"
                                         (@create_refresh_token));
          refresh_token ← lift (await_value (create_refresh_token
                                  {[ "sub" := VStr (User.email user) ]}));
          update_token ← lift (repository_attribute repository_users
                                 "update_token" update_token);
          _ ← await (update_token user (Some refresh_token));
          mret (Dict [("access_token", FToken access_token);
                      ("refresh_token", FToken refresh_token);
                      ("token_type", FStr "bearer")])
  end.

(** GET /confirmed_email/{token} *)
Definition confirmed_email (token : Token)
    (auth_service : option AuthService)
    (repository_users : option UsersRepository) : M response :=
  get_email_from_token ← lift (service_attribute auth_service
                                 "get_email_from_token" (@get_email_from_token));
  email ← lift (await_value (get_email_from_token token));
  get_user_by_email ← lift (repository_attribute repository_users
                              "get_user_by_email" get_user_by_email);
  user ← await (get_user_by_email email);
  match user with
  | None => raise (HTTPException HTTP_400_BAD_REQUEST "Verification error" [])
  | Some user =>
      if User.confirmed user
      then mret (Dict [("message", FStr "Your email is already confirmed");
                       ("status_code", FInt HTTP_200_OK)])
      else
        confirmed_email ← lift (repository_attribute repository_users
                                  "confirmed_email" confirmed_email);
        _ ← await (confirmed_email email);
        mret (Dict [("message", FStr "Email confirmed")])
  end.

(** POST /request_email. [user.confirmed] is read before [user] is
    tested. *)
Definition request_email (body_email : string)
    (repository_users : option UsersRepository) : M (response * list Task) :=
  get_user_by_email ← lift (repository_attribute repository_users
                              "get_user_by_email" get_user_by_email);
  user ← await (get_user_by_email (VStr body_email));
  confirmed ← lift (getattr "confirmed" User.confirmed user);
  if confirmed : bool
  then mret (Dict [("message", FStr "Your email is already confirmed");
                   ("status_code", FInt HTTP_200_OK)], [])
  else
    let background_tasks :=
      match user with
      | Some user => [send_email_task (User.email user) (User.username user)]
      | None => []
      end in
    mret (Dict [("message", FStr "Check your email for confirmation.")],
          background_tasks).

End auth.

(** ** src/repository/contacts.py *)

(** [Contact(id=contact.contact_id, ..., additional_data=contact.additional_info)] *)
Definition Contact_of (contact : UserContact.t) : Contact.t :=
  Contact.mk (UserContact.contact_id contact) (UserContact.first_name contact)
    (UserContact.last_name contact) (UserContact.email contact)
    (UserContact.phone_number contact) (UserContact.birth_date contact)
    (UserContact.additional_info contact).

(** The six assignments of [update_contact] on the loaded row. *)
Definition assign_fields (updated_contact : UserContact.t) (db_contact : Contact.t)
    : Contact.t :=
  Contact.mk (Contact.id db_contact) (UserContact.first_name updated_contact)
    (UserContact.last_name updated_contact) (UserContact.email updated_contact)
    (UserContact.phone_number updated_contact)
    (UserContact.birth_date updated_contact)
    (UserContact.additional_info updated_contact).

(** The except clause of the contact handlers. *)
Definition internal_server_error (e : exn) : M () :=
  _ ← rollback;
  raise (HTTPException 500 ("Internal Server Error: " +:+ str e) []).

Module repository_contacts.

(** POST /contacts/ *)
Definition create_new_contact (contact : UserContact.t) : M response :=
  _ ← try_except_M
        (_ ← add_contact (Contact_of contact);
         commit)
        any_Exception
        internal_server_error;
  mret (ContactBody contact).

(** GET /contacts/ *)
Definition get_all_contacts_list : M response :=
  contacts ← query_contacts_all (λ _, true);
  mret (ContactRows contacts).

(** GET /contacts/{contact_id} *)
Definition get_contact (contact_id : Z) : M response :=
  contact ← query_contact_get contact_id;
  match contact with
  | None => raise (HTTPException 404 "Contact not found" [])
  | Some contact => mret (ContactRow contact)
  end.

(** PUT /contacts/{contact_id}. The 404 is raised inside the try block,
    whose except clause catches every Exception. *)
Definition update_contact (contact_id : Z) (updated_contact : UserContact.t)
    : M response :=
  _ ← try_except_M
        (db_contact ← query_contact_get contact_id;
         match db_contact with
         | None => raise (HTTPException 404 "Contact not found" [])
         | Some _ =>
             _ ← assign_contact contact_id (assign_fields updated_contact);
             commit
         end)
        any_Exception
        internal_server_error;
  mret (Dict [("message", FStr "Success!")]).

(** DELETE /contacts/{contact_id} *)
Definition delete_contact (contact_id : Z) : M response :=
  db_contact ← query_contact_get contact_id;
  match db_contact with
  | None => raise (HTTPException 404 "Contact not found" [])
  | Some _ =>
      _ ← delete_row contact_id;
      _ ← commit;
      mret (Dict [("message", FStr "Success!")])
  end.

End repository_contacts.

(** ** src/routes/router_endpoints.py

    Every handler depends on [get_active_user], resolved on the bearer
    token before the body runs. *)
Module router_endpoints.
Section handlers.
Context (cfg : Settings) (now : Z) (token : Token).

Definition create_new_contact (contact : UserContact.t) : M response :=
  current_user ← auth_procedures.active_user cfg now token;
  _ ← try_except_M
        (_ ← add_contact (Contact_of contact);
         commit)
        any_Exception
        internal_server_error;
  mret (Dict [("message", FStr "Contact created successfully!");
              ("status_code", FInt HTTP_201_CREATED)]).

Definition get_all_contacts_list : M response :=
  current_user ← auth_procedures.active_user cfg now token;
  contacts ← query_contacts_all (λ _, true);
  mret (ContactRows contacts).

Definition get_contact (contact_id : Z) : M response :=
  current_user ← auth_procedures.active_user cfg now token;
  contact ← query_contact_get contact_id;
  match contact with
  | None => raise (HTTPException 404 "Contact not found" [])
  | Some contact => mret (ContactRow contact)
  end.

Definition update_contact (contact_id : Z) (updated_contact : UserContact.t)
    : M response :=
  current_user ← auth_procedures.active_user cfg now token;
  _ ← try_except_M
        (db_contact ← query_contact_get contact_id;
         match db_contact with
         | None => raise (HTTPException 404 "Contact not found" [])
         | Some _ =>
             _ ← assign_contact contact_id (assign_fields updated_contact);
             commit
         end)
        any_Exception
        internal_server_error;
  mret (Dict [("message", FStr "Success!")]).

Definition delete_contact (contact_id : Z) : M response :=
  current_user ← auth_procedures.active_user cfg now token;
  db_contact ← query_contact_get contact_id;
  match db_contact with
  | None => raise (HTTPException 404 "Contact not found" [])
  | Some _ =>
      _ ← delete_row contact_id;
      _ ← commit;
      mret (Dict [("message", FStr "Success!");
                  ("status_code", FInt HTTP_204_NO_CONTENT)])
  end.

(** [ilike pattern text] is the database's case-insensitive LIKE. An
    empty or absent search term is false. *)
Definition get_specific_contacts_list (ilike : string → string → bool)
    (search : option string) : M response :=
  current_user ← auth_procedures.active_user cfg now token;
  contacts ←
    match search with
    | Some term =>
        if bool_decide (term = "")
        then query_contacts_all (λ _, true)
        else
          let pattern := "%" +:+ term +:+ "%" in
          query_contacts_all (λ c,
            ilike pattern (Contact.first_name c)
            || ilike pattern (Contact.last_name c)
            || ilike pattern (Contact.email c))
    | None => query_contacts_all (λ _, true)
    end;
  mret (ContactRows contacts).

(** GET /contacts/birthdays/. [today] is [datetime.today()]. *)
Definition get_upcoming_birthdays (today : Z) : M (list Contact.t) :=
  current_user ← auth_procedures.active_user cfg now token;
  let end_date := today + days 7 in
  upcoming_birthdays ← query_contacts_all (λ c,
    (today <=? Contact.birth_date c) && (Contact.birth_date c <=? end_date));
  mret upcoming_birthdays.

End handlers.
End router_endpoints.

(** ** src/routes/router_contacts.py *)

(** [Depends(RateLimiter(times=..., seconds=...))] of fastapi_limiter. The
    dependency needs the limiter's store, which [FastAPILimiter.init] sets
    up at startup; main.py does not call it. *)
Definition RateLimiter (redis : option ()) : result () :=
  match redis with
  | Some _ => Return ()
  | None =>
      Raise (Exception "You must call FastAPILimiter.init in startup event of fastapi!")
  end.

(** What FastAPILimiter holds in the application main.py assembles. *)
Definition FastAPILimiter_redis : option () := None.

(** What the call of a function with more positional arguments than it
    takes raises. *)
Definition too_many_arguments (name : string) (least most given : Z) : exn :=
  TypeError (name +:+ "() takes from " +:+ pretty least +:+ " to "
             +:+ pretty most +:+ " positional arguments but " +:+ pretty given
             +:+ " were given").

(** [Path(gt=0)] on the contact id *)
Definition Path_gt_0 (contact_id : Z) : result () :=
  if 0 <? contact_id then Return ()
  else Raise (RequestValidationError "ensure this value is greater than 0").

(** A route's dependencies are resolved in order, those of its decorator
    first, then those of the handler's parameters, then the parameters are
    validated; the handler then calls the function of
    src/repository/contacts.py with one positional argument more than that
    function takes. The body of a request plays no part in what it comes
    to. *)
Module router_contacts.
Section handlers.
Context (cfg : Settings) (now : Z) (token : Token).

Definition create_new_contact : M response :=
  _ ← lift (RateLimiter FastAPILimiter_redis);
  current_user ← auth_procedures.active_user cfg now token;
  raise (too_many_arguments "create_new_contact" 1 2 3).

Definition get_all_contact_list : M response :=
  current_user ← auth_procedures.active_user cfg now token;
  raise (too_many_arguments "get_all_contacts_list" 0 1 2).

Definition get_contact (contact_id : Z) : M response :=
  current_user ← auth_procedures.active_user cfg now token;
  _ ← lift (Path_gt_0 contact_id);
  raise (too_many_arguments "get_contact" 1 2 3).

Definition update_contact (contact_id : Z) : M response :=
  _ ← lift (RateLimiter FastAPILimiter_redis);
  current_user ← auth_procedures.active_user cfg now token;
  _ ← lift (Path_gt_0 contact_id);
  raise (too_many_arguments "update_contact" 2 3 4).

Definition delete_contact (contact_id : Z) : M response :=
  _ ← lift (RateLimiter FastAPILimiter_redis);
  current_user ← auth_procedures.active_user cfg now token;
  _ ← lift (Path_gt_0 contact_id);
  raise (too_many_arguments "delete_contact" 1 2 3).

End handlers.
End router_contacts.

(** The five routes of src/routes/router_contacts.py, with the contact id
    of the path. *)
Inductive contacts_route :=
| Create_new_contact
| Get_all_contact_list
| Get_contact (contact_id : Z)
| Update_contact (contact_id : Z)
| Delete_contact (contact_id : Z).

(** ** The operations of the system *)

(** One constructor per handler that is given the database session or a
    bearer token, and per function of src/repository/users.py that writes
    a User row, each with the data of its request. The root endpoint of
    main.py and /send-email of send_email.py are given neither. *)
Inductive request :=
(* src/auth_files/auth_procedures.py *)
| POST_token (form_data : Form)
| POST_token_refresh (current_token : Token)
| Verify_user_email (token : Token)
(* src/routes/routes.py *)
| Routes_signup (email password salt : string)
| Routes_login (form_data : Form)
| GET_secret (token : Token)
| PUT_user_avatar (token : Token) (avatar_url : string)
    (cloudinary_response : result (option string))
(* src/routes/auth.py *)
| Auth_signup (body : UserModel) (avatar : option string)
| Auth_login (body : Form)
| GET_confirmed_email (token : Token)
| POST_request_email (email : string)
(* src/repository/users.py *)
| Users_update_token (user : User.t) (token : option Token)
| Users_confirm_email (email : value)
| Users_update_avatar (email : value) (url : string)
(* src/repository/contacts.py *)
| Contacts_create (contact : UserContact.t)
| Contacts_list
| Contacts_get (contact_id : Z)
| Contacts_update (contact_id : Z) (updated_contact : UserContact.t)
| Contacts_delete (contact_id : Z)
(* src/routes/router_endpoints.py *)
| Endpoints_create (token : Token) (contact : UserContact.t)
| Endpoints_list (token : Token)
| Endpoints_get (token : Token) (contact_id : Z)
| Endpoints_update (token : Token) (contact_id : Z) (updated_contact : UserContact.t)
| Endpoints_delete (token : Token) (contact_id : Z)
| Endpoints_search (token : Token) (search : option string)
| Endpoints_birthdays (token : Token) (today : Z)
(* src/routes/router_contacts.py *)
| Router_contacts (token : Token) (route : contacts_route).

(** What a request produces besides its effect on the store: the response
    and the background tasks queued. *)
Definition plain (h : M response) : M (response * list Task) :=
  r ← h; mret (r, []).

(** The handlers of routes/auth.py are called with the module
    src/repository/users.py as [repository_users] and with any
    [auth_service]; the coroutine functions of src/repository/users.py are
    awaited. *)
Section system.
Context (cfg : Settings) {auth_service : AuthService}
        (ilike : string → string → bool).

Definition handle (now : Z) (req : request) : M (response * list Task) :=
  match req with
  | POST_token form_data =>
      plain (auth_procedures.login_for_access_token cfg now form_data)
  | POST_token_refresh current_token =>
      plain (lift (auth_procedures.refresh_access_token cfg now current_token))
  | Verify_user_email token =>
      plain (auth_procedures.verify_user_email cfg now token)
  | Routes_signup email password salt =>
      plain (routes.signup email password salt)
  | Routes_login form_data => plain (routes.login cfg now form_data)
  | GET_secret token => plain (routes.read_secret cfg now token)
  | PUT_user_avatar token avatar_url cloudinary_response =>
      plain (routes.update_avatar cfg now token avatar_url cloudinary_response)
  | Auth_signup body avatar =>
      auth.signup body avatar (Some users_module) (Some auth_service)
  | Auth_login body =>
      plain (auth.login body (Some users_module) (Some auth_service))
  | GET_confirmed_email token =>
      plain (auth.confirmed_email token (Some auth_service) (Some users_module))
  | POST_request_email email => auth.request_email email (Some users_module)
  | Users_update_token user token =>
      plain (_ ← users.update_token user token; mret (Dict []))
  | Users_confirm_email email =>
      plain (_ ← await (AsyncDef (users.confirm_email email)); mret (Dict []))
  | Users_update_avatar email url =>
      plain (_ ← await (AsyncDef (users.update_avatar email url));
             mret (Dict []))
  | Contacts_create contact =>
      plain (repository_contacts.create_new_contact contact)
  | Contacts_list => plain repository_contacts.get_all_contacts_list
  | Contacts_get contact_id => plain (repository_contacts.get_contact contact_id)
  | Contacts_update contact_id updated_contact =>
      plain (repository_contacts.update_contact contact_id updated_contact)
  | Contacts_delete contact_id =>
      plain (repository_contacts.delete_contact contact_id)
  | Endpoints_create token contact =>
      plain (router_endpoints.create_new_contact cfg now token contact)
  | Endpoints_list token =>
      plain (router_endpoints.get_all_contacts_list cfg now token)
  | Endpoints_get token contact_id =>
      plain (router_endpoints.get_contact cfg now token contact_id)
  | Endpoints_update token contact_id updated_contact =>
      plain (router_endpoints.update_contact cfg now token contact_id
               updated_contact)
  | Endpoints_delete token contact_id =>
      plain (router_endpoints.delete_contact cfg now token contact_id)
  | Endpoints_search token search =>
      plain (router_endpoints.get_specific_contacts_list cfg now token ilike
               search)
  | Endpoints_birthdays token today =>
      plain (cs ← router_endpoints.get_upcoming_birthdays cfg now token today;
             mret (ContactRows cs))
  | Router_contacts token Create_new_contact =>
      plain (router_contacts.create_new_contact cfg now token)
  | Router_contacts token Get_all_contact_list =>
      plain (router_contacts.get_all_contact_list cfg now token)
  | Router_contacts token (Get_contact contact_id) =>
      plain (router_contacts.get_contact cfg now token contact_id)
  | Router_contacts token (Update_contact contact_id) =>
      plain (router_contacts.update_contact cfg now token contact_id)
  | Router_contacts token (Delete_contact contact_id) =>
      plain (router_contacts.delete_contact cfg now token contact_id)
  end.

(** One request served on a database. *)
Definition serve (now : Z) (req : request) (db : Store)
    : result (response * list Task) * Store :=
  run (handle now req) db.

End system.

(** An [auth_service] assembled from the repository's own helpers, all of
    them plain functions: the bcrypt context, the token functions of
    routes/jwt.py and an EmailTokenManager. It serves to run the requests of
    the system on concrete data. *)
Definition helpers_auth_service (cfg : Settings) (now : Z) (salt : string)
    : AuthService := {|
  get_password_hash := pwd_context_hash salt;
  verify_password := pwd_context_verify;
  create_access_token := λ data,
    Def (routes_jwt.create_access_token cfg now data None);
  create_refresh_token := λ data,
    Def (routes_jwt.create_refresh_token cfg now data);
  get_email_from_token := λ token,
    Def (EmailTokenManager.get_email_from_token
           (EmailTokenManager.__init__ (SECRET_KEY cfg) (ALGORITHM cfg)) now
           token)
|}.

(** ** Awaitable collaborators

    No object of the repository can stand behind the awaits of
    routes/auth.py. The two below are what those awaits expect, and are not
    part of the sources: the functions of src/repository/users.py, with
    [confirm_email] under the name the handler calls, and the helpers of
    [helpers_auth_service], each as a coroutine function. Statements
    made of every repository and every service are run on them. *)
Definition coroutine_users : UsersRepository := {|
  object := "coroutine_users";
  get_user_by_email := Some (λ email, AsyncDef (users.get_user_by_email email));
  create_user :=
    Some (λ body password avatar,
            AsyncDef (users.create_user body password avatar));
  update_token := Some (λ user token, AsyncDef (users.update_token user token));
  confirmed_email := Some (λ email, AsyncDef (users.confirm_email email))
|}.

Definition coroutine_service (cfg : Settings) (now : Z) (salt : string)
    : AuthService := {|
  get_password_hash := pwd_context_hash salt;
  verify_password := pwd_context_verify;
  create_access_token := λ data,
    AsyncDef (routes_jwt.create_access_token cfg now data None);
  create_refresh_token := λ data,
    AsyncDef (routes_jwt.create_refresh_token cfg now data);
  get_email_from_token := λ token,
    AsyncDef (EmailTokenManager.get_email_from_token
                (EmailTokenManager.__init__ (SECRET_KEY cfg) (ALGORITHM cfg))
                now token)
|}.

(** ** The calendar *)

(** Python's proleptic Gregorian ordinal of a date ([date.toordinal]). *)
Definition is_leap (year : Z) : bool :=
  (year mod 4 =? 0) && (negb (year mod 100 =? 0) || (year mod 400 =? 0)).

Definition days_before_year (year : Z) : Z :=
  let y := year - 1 in
  y * 365 + y / 4 - y / 100 + y / 400.

Definition days_in_month (year month : Z) : Z :=
  if month =? 2 then (if is_leap year then 29 else 28)
  else if (month =? 4) || (month =? 6) || (month =? 9) || (month =? 11) then 30
  else 31.

Definition days_before_month (year month : Z) : Z :=
  foldr Z.add 0 (days_in_month year <$> seqZ 1 (month - 1)).

Definition ymd2ord (year month day : Z) : Z :=
  days_before_year year + days_before_month year month + day.

(** [1 <= month <= 12] and [1 <= day <= days_in_month(year, month)] *)
Definition valid_date (year month day : Z) : Prop :=
  1 ≤ year ∧ 1 ≤ month ≤ 12 ∧ 1 ≤ day ≤ days_in_month year month.

(** [datetime(year, month, day)], midnight of that date *)
Definition datetime (year month day : Z) : Z :=
  days (ymd2ord year month day).

(** ** Vocabulary of the properties *)

(** The claims of a bearer string; a string that is no JWS has none. *)
Definition token_claims (token : Token) : Payload :=
  match token with
  | Jws _ _ claims => claims
  | Opaque _ => ∅
  end.

(** The signature verifies under the server's key. *)
Definition signature_valid (cfg : Settings) (token : Token) : Prop :=
  ∃ alg claims, token = Jws alg (SECRET_KEY cfg) claims ∧ alg ∈ SUPPORTED.

(** The header names the configured algorithm. *)
Definition algorithm_matches (cfg : Settings) (token : Token) : Prop :=
  ∃ key claims, token = Jws (ALGORITHM cfg) key claims.

(** The expiry, read as an integer, lies before [now]. *)
Definition expired (now : Z) (token : Token) : Prop :=
  ∃ v exp, token_claims token !! "exp" = Some v
           ∧ python_int v = Return exp ∧ exp < now.

(** No expiry, or one that reads as an integer not before [now]. *)
Definition unexpired (now : Z) (token : Token) : Prop :=
  match token_claims token !! "exp" with
  | None => True
  | Some v => ∃ exp, python_int v = Return exp ∧ now ≤ exp
  end.

(** The time claims "iat", "nbf" and "exp", when present, are numbers or
    strings. *)
Definition time_claims_typed (claims : Payload) : Prop :=
  claims !! "iat" ≠ Some VNone ∧ claims !! "nbf" ≠ Some VNone
  ∧ claims !! "exp" ≠ Some VNone.

(** The registered claims besides "exp" and "sub" are such that the
    decoder's default checks pass at [now]: no audience and no at_hash, a
    jti that is a string, an iat that reads as an integer, an nbf that reads
    as an integer not after [now]. *)
Definition other_claims_valid (now : Z) (claims : Payload) : Prop :=
  claims !! "aud" = None
  ∧ claims !! "at_hash" = None
  ∧ match claims !! "jti" with
    | None | Some (VStr _) => True
    | Some _ => False
    end
  ∧ match claims !! "iat" with
    | None => True
    | Some v => ∃ iat, python_int v = Return iat
    end
  ∧ match claims !! "nbf" with
    | None => True
    | Some v => ∃ nbf, python_int v = Return nbf ∧ nbf ≤ now
    end.

(** Signed by the server with the configured algorithm. *)
Definition well_signed (cfg : Settings) (token : Token) : Prop :=
  signature_valid cfg token ∧ algorithm_matches cfg token.

(** Every row of [before] is still there in [after], under the same key,
    and confirmed if it was. *)
Definition flags_kept (before after : list User.t) : Prop :=
  ∀ i u, before !! i = Some u →
    ∃ u', after !! i = Some u' ∧ User.id u' = User.id u
          ∧ (User.confirmed u = true → User.confirmed u' = true).

(** The loaded rows are ahead of the committed rows. *)
Definition ahead (s : Session) : Prop :=
  flags_kept (users (committed s)) (users (working s)).

(** A computation that keeps the flags of the committed rows. *)
Definition keeps {A} (m : M A) : Prop :=
  ∀ s r s', ahead s → m s = (r, s') →
    ahead s' ∧ flags_kept (users (committed s)) (users (committed s')).

(** An assignment that leaves the key alone and does not clear the flag. *)
Definition harmless (f : User.t → User.t) : Prop :=
  ∀ u, User.id (f u) = User.id u
       ∧ (User.confirmed u = true → User.confirmed (f u) = true).

(** The row of primary key [id] confirmed, the others as they were. *)
Definition confirm_row (id : Z) (us : list User.t) : list User.t :=
  (λ u, if bool_decide (User.id u = id) then User.set_confirmed true u else u)
    <$> us.

(** The session a confirmation of [user] leaves when it was opened on
    [db]: untouched, with no commit, when the flag is set already; one
    commit of the flag otherwise. *)
Definition after_confirmation (db : Store) (user : User.t) : Session :=
  if User.confirmed user then open_session db
  else
    let db' := mkStore (confirm_row (User.id user) (users db)) (contacts db) in
    mkSession db' db' [] [] 1.

(** The row of primary key [id] with the refresh token [rt]. *)
Definition store_token (id : Z) (rt : Token) (us : list User.t) : list User.t :=
  (λ u, if bool_decide (User.id u = id)
        then User.set_refresh_token (Some rt) u else u) <$> us.

(** An attempt that names no user, or a user whose digest was computed
    from another password. *)
Definition bad_credentials (db : Store) (form_data : Form) : Prop :=
  match List.find (λ u, bool_decide (User.email u = form_username form_data))
          (users db) with
  | None => True
  | Some u =>
      ∃ salt original, User.password u = Bcrypt salt original
                       ∧ form_password form_data ≠ original
  end.

(** ** Sample data

    Concrete settings, tokens and rows on which the handlers are run. *)

Definition cfg0 : Settings := mkSettings "default secret" "HS256".

(** A token the server signed, valid until 2000, that carries no "sub". *)
Definition token_without_sub : Token :=
  Jws "HS256" "default secret" {[ "exp" := VInt 2000 ]}.

(** A token for ann@example.com, valid until 2000, that names an
    audience. *)
Definition token_with_aud : Token :=
  Jws "HS256" "default secret"
    {[ "sub" := VStr "ann@example.com"; "exp" := VInt 2000;
       "aud" := VStr "contacts" ]}.

(** A token for ann@example.com that expired at 2000 and whose "iat" is
    null. *)
Definition token_null_iat : Token :=
  Jws "HS256" "default secret"
    {[ "sub" := VStr "ann@example.com"; "exp" := VInt 2000; "iat" := VNone ]}.

(** A refresh token for ann@example.com, valid until 2000. *)
Definition token_ann : Token :=
  Jws "HS256" "default secret"
    {[ "sub" := VStr "ann@example.com"; "exp" := VInt 2000 ]}.

Definition no_rows : Store := mkStore [] ∅.

(** A confirmed user with a bcrypt digest, and a user whose password column
    holds a plain string, as the fake-data script and the model test write
    it. *)
Definition ann : User.t :=
  User.mk 1 (Some "ann") "ann@example.com" (Bcrypt "salt" "secret123") None true
    None.
Definition bob : User.t :=
  User.mk 2 (Some "bob") "bob@example.com" (Plain "password123") None false None.
Definition two_users : Store := mkStore [ann; bob] ∅.

(** Two contact payloads with the same id, and a database that holds the
    first. *)
Definition steve : UserContact.t :=
  UserContact.mk 1 "Steve" "Jobs" "steve.jobs@example.com" "777888999"
    (datetime 2000 11 11) (Some "Some additional data").
Definition john : UserContact.t :=
  UserContact.mk 1 "John" "Doe" "john.doe@example.com" "123456789"
    (datetime 1990 1 1) None.
Definition ann_and_steve : Store :=
  mkStore [ann] {[ 1 := Contact_of steve ]}.

(** A confirmation token for bob@example.com, valid until 2000. *)
Definition token_bob : Token :=
  Jws "HS256" "default secret"
    {[ "sub" := VStr "bob@example.com"; "exp" := VInt 2000 ]}.

(** ** Vocabulary of the further properties *)

(** A payload whose "sub", when it has one, is a string. *)
Definition subject_ok (data : Payload) : Prop :=
  match data !! "sub" with
  | None | Some (VStr _) => True
  | Some _ => False
  end.

(** A payload with none of the registered claims "iat", "nbf", "aud", "jti"
    and "at_hash". *)
Definition unregistered (data : Payload) : Prop :=
  data !! "iat" = None ∧ data !! "nbf" = None ∧ data !! "aud" = None
  ∧ data !! "jti" = None ∧ data !! "at_hash" = None.

(** The token a server-side issuer produces for [claims]. *)
Definition signed (cfg : Settings) (claims : Payload) : Token :=
  Jws (ALGORITHM cfg) (SECRET_KEY cfg) claims.

(** The routes of router_contacts.py whose decorator declares a
    RateLimiter. *)
Definition rate_limited (route : contacts_route) : bool :=
  match route with
  | Create_new_contact | Update_contact _ | Delete_contact _ => true
  | Get_all_contact_list | Get_contact _ => false
  end.

(** The bearer token of a request to a handler whose first dependency is
    [get_current_user], directly or through [get_active_user]. *)
Definition bearer_of (req : request) : option Token :=
  match req with
  | GET_secret token
  | PUT_user_avatar token _ _
  | Endpoints_create token _
  | Endpoints_list token
  | Endpoints_get token _
  | Endpoints_update token _ _
  | Endpoints_delete token _
  | Endpoints_search token _
  | Endpoints_birthdays token _ => Some token
  | Router_contacts token route =>
      if rate_limited route then None else Some token
  | _ => None
  end.

(** Every row of [before] is still there in [after], with the same key,
    email, username and password. *)
Definition identity_kept (before after : list User.t) : Prop :=
  ∀ i u, before !! i = Some u →
    ∃ u', after !! i = Some u' ∧ User.id u' = User.id u
          ∧ User.email u' = User.email u
          ∧ User.username u' = User.username u
          ∧ User.password u' = User.password u.

(** The requests whose handler assigns to a User row or adds one. *)
Definition writes_users (req : request) : bool :=
  match req with
  | Verify_user_email _ | Routes_signup _ _ _ | Auth_signup _ _ | Auth_login _
  | GET_confirmed_email _ | Users_update_token _ _ | Users_confirm_email _
  | Users_update_avatar _ _ => true
  | _ => false
  end.

(** The requests whose handler adds, assigns to or deletes a Contact row. *)
Definition writes_contacts (req : request) : bool :=
  match req with
  | Contacts_create _ | Contacts_update _ _ | Contacts_delete _
  | Endpoints_create _ _ | Endpoints_update _ _ _ | Endpoints_delete _ _ => true
  | _ => false
  end.

(** Every contact row is stored under its own id. *)
Definition keyed_by_id (cs : gmap Z Contact.t) : Prop :=
  ∀ key c, cs !! key = Some c → Contact.id c = key.

(** The requests whose handler makes a call that cannot return: a function
    that reads the session called without one, or a repository function
    called with too many arguments. *)
Definition miswired (req : request) : bool :=
  match req with
  | POST_token _ | PUT_user_avatar _ _ _ | Router_contacts _ _ => true
  | _ => false
  end.

(** ** Running a computation *)

(** Unfolds the monad and the session primitives, so that a handler applied
    to a session reduces along its source. *)
Ltac exec :=
  cbv [run mbind mret M_bind M_ret result_bind result_ret lift raise
       try_except try_except_M any_Exception session_query query_user_first
       query_contact_get query_contacts_all commit rollback add_user
       add_contact assign_user assign_contact delete_row refresh_user
       internal_server_error open_session plain await await_value
       repository_attribute service_attribute];
  simpl.

(** ** Lemmas on the token library *)

Lemma python_int_typed v :
  v ≠ VNone →
  (∃ n, python_int v = Return n) ∨ (∃ msg, python_int v = Raise (ValueError msg)).
Proof.
  destruct v as [|s|n]; [done | | by eauto]. simpl.
  destruct (int_of_string s); eauto.
Qed.

(** What each check of the decoder comes to. *)
Lemma validate_iat_Return claims :
  validate_iat claims = Return ()
  ↔ match claims !! "iat" with
    | None => True
    | Some v => ∃ iat, python_int v = Return iat
    end.
Proof.
  unfold validate_iat. destruct (claims !! "iat") as [v|]; [|done].
  destruct (python_int v) as [n|e] eqn:Hv; simpl.
  - split; eauto.
  - split; [by destruct (is_ValueError e) | by intros [? ?]].
Qed.

Lemma validate_nbf_Return now claims :
  validate_nbf now claims = Return ()
  ↔ match claims !! "nbf" with
    | None => True
    | Some v => ∃ nbf, python_int v = Return nbf ∧ nbf ≤ now
    end.
Proof.
  unfold validate_nbf. destruct (claims !! "nbf") as [v|]; [|done].
  destruct (python_int v) as [n|e] eqn:Hv; simpl.
  - destruct (Z.ltb_spec now n); split; try done.
    + intros (? & [= <-] & ?). lia.
    + intros _. exists n. split; [done | lia].
  - split; [by destruct (is_ValueError e) | by intros (? & ? & ?)].
Qed.

Lemma validate_exp_Return now alg key claims :
  validate_exp now claims = Return () ↔ unexpired now (Jws alg key claims).
Proof.
  unfold validate_exp, unexpired. simpl.
  destruct (claims !! "exp") as [v|]; [|done].
  destruct (python_int v) as [n|e] eqn:Hv; simpl.
  - destruct (Z.ltb_spec n now); split; try done.
    + intros (? & [= <-] & ?). lia.
    + intros _. exists n. split; [done | lia].
  - split; [by destruct (is_ValueError e) | by intros (? & ? & ?)].
Qed.

Lemma validate_aud_Return claims :
  validate_aud claims = Return () ↔ claims !! "aud" = None.
Proof. unfold validate_aud. by destruct (claims !! "aud") as [[]|]. Qed.

Lemma validate_sub_Return claims :
  validate_sub claims = Return () ↔ subject_ok claims.
Proof.
  unfold validate_sub, subject_ok. by destruct (claims !! "sub") as [[]|].
Qed.

Lemma validate_jti_Return claims :
  validate_jti claims = Return ()
  ↔ match claims !! "jti" with
    | None | Some (VStr _) => True
    | Some _ => False
    end.
Proof. unfold validate_jti. by destruct (claims !! "jti") as [[]|]. Qed.

Lemma validate_at_hash_Return claims :
  validate_at_hash claims = Return () ↔ claims !! "at_hash" = None.
Proof. unfold validate_at_hash. by destruct (claims !! "at_hash"). Qed.

Lemma bind_unit_Return (m : result ()) (k : result ()) :
  (_ ← m; k) = Return () ↔ m = Return () ∧ k = Return ().
Proof.
  destruct m as [[]|e]; simpl; [|by split; [|intros [? ?]]].
  split; [done | by intros [_ ?]].
Qed.

Lemma validate_claims_Return now alg key claims :
  validate_claims now claims = Return ()
  ↔ unexpired now (Jws alg key claims) ∧ subject_ok claims
    ∧ other_claims_valid now claims.
Proof.
  unfold validate_claims, other_claims_valid.
  rewrite !bind_unit_Return, validate_iat_Return, validate_nbf_Return,
    (validate_exp_Return now alg key), validate_aud_Return,
    validate_sub_Return, validate_jti_Return, validate_at_hash_Return.
  tauto.
Qed.

(** A check that raises anything but a JWTError has met a null time
    claim. *)
Lemma validate_claims_Raise now claims e :
  time_claims_typed claims →
  validate_claims now claims = Raise e → is_JWTError e = true.
Proof.
  intros (Hiat & Hnbf & Hexp).
  unfold validate_claims, validate_iat, validate_nbf, validate_exp,
    validate_aud, validate_sub, validate_jti, validate_at_hash.
  destruct (claims !! "iat") as [iat|]; simpl.
  - destruct (python_int_typed iat) as [[n ->]|[msg ->]]; [congruence| |];
      simpl; [|by intros [= <-]].
    destruct (claims !! "nbf") as [nbf|]; simpl.
    + destruct (python_int_typed nbf) as [[n' ->]|[msg ->]]; [congruence| |];
        simpl; [|by intros [= <-]].
      destruct (now <? n'); simpl; [by intros [= <-]|].
      destruct (claims !! "exp") as [exp|]; simpl.
      * destruct (python_int_typed exp) as [[n'' ->]|[msg ->]]; [congruence| |];
          simpl; [|by intros [= <-]].
        destruct (n'' <? now); simpl; [by intros [= <-]|].
        destruct (claims !! "aud") as [[]|], (claims !! "sub") as [[]|],
          (claims !! "jti") as [[]|], (claims !! "at_hash");
          simpl; by intros [= <-].
      * destruct (claims !! "aud") as [[]|], (claims !! "sub") as [[]|],
          (claims !! "jti") as [[]|], (claims !! "at_hash");
          simpl; by intros [= <-].
    + destruct (claims !! "exp") as [exp|]; simpl.
      * destruct (python_int_typed exp) as [[n'' ->]|[msg ->]]; [congruence| |];
          simpl; [|by intros [= <-]].
        destruct (n'' <? now); simpl; [by intros [= <-]|].
        destruct (claims !! "aud") as [[]|], (claims !! "sub") as [[]|],
          (claims !! "jti") as [[]|], (claims !! "at_hash");
          simpl; by intros [= <-].
      * destruct (claims !! "aud") as [[]|], (claims !! "sub") as [[]|],
          (claims !! "jti") as [[]|], (claims !! "at_hash");
          simpl; by intros [= <-].
  - destruct (claims !! "nbf") as [nbf|]; simpl.
    + destruct (python_int_typed nbf) as [[n' ->]|[msg ->]]; [congruence| |];
        simpl; [|by intros [= <-]].
      destruct (now <? n'); simpl; [by intros [= <-]|].
      destruct (claims !! "exp") as [exp|]; simpl.
      * destruct (python_int_typed exp) as [[n'' ->]|[msg ->]]; [congruence| |];
          simpl; [|by intros [= <-]].
        destruct (n'' <? now); simpl; [by intros [= <-]|].
        destruct (claims !! "aud") as [[]|], (claims !! "sub") as [[]|],
          (claims !! "jti") as [[]|], (claims !! "at_hash");
          simpl; by intros [= <-].
      * destruct (claims !! "aud") as [[]|], (claims !! "sub") as [[]|],
          (claims !! "jti") as [[]|], (claims !! "at_hash");
          simpl; by intros [= <-].
    + destruct (claims !! "exp") as [exp|]; simpl.
      * destruct (python_int_typed exp) as [[n'' ->]|[msg ->]]; [congruence| |];
          simpl; [|by intros [= <-]].
        destruct (n'' <? now); simpl; [by intros [= <-]|].
        destruct (claims !! "aud") as [[]|], (claims !! "sub") as [[]|],
          (claims !! "jti") as [[]|], (claims !! "at_hash");
          simpl; by intros [= <-].
      * destruct (claims !! "aud") as [[]|], (claims !! "sub") as [[]|],
          (claims !! "jti") as [[]|], (claims !! "at_hash");
          simpl; by intros [= <-].
Qed.

Lemma jwt_decode_Return now token key algorithms payload :
  jwt_decode now token key algorithms = Return payload →
  ∃ alg, token = Jws alg key payload ∧ alg ∈ algorithms ∧ alg ∈ SUPPORTED
         ∧ unexpired now token ∧ subject_ok payload
         ∧ other_claims_valid now payload.
Proof.
  unfold jwt_decode. destruct token as [alg k claims|raw]; [|done].
  destruct (bool_decide (alg ∈ algorithms)) eqn:Halg; simpl; [|done].
  destruct (bool_decide (alg ∈ SUPPORTED)) eqn:Hsup; simpl; [|done].
  destruct (bool_decide (k = key)) eqn:Hkey; simpl; [|done].
  destruct (validate_claims now claims) as [[]|e] eqn:Hv; simpl; [|done].
  intros [= <-].
  apply bool_decide_eq_true in Halg, Hsup, Hkey. subst k.
  apply (validate_claims_Return now alg key) in Hv as (? & ? & ?).
  eauto 10.
Qed.

Lemma jwt_decode_well_signed cfg now token :
  well_signed cfg token → unexpired now token →
  other_claims_valid now (token_claims token) →
  subject_ok (token_claims token) →
  jwt_decode now token (SECRET_KEY cfg) [ALGORITHM cfg]
  = Return (token_claims token).
Proof.
  intros [(alg & claims & -> & Hsup) (key & claims' & Heq)] Hexp Hother Hsub.
  injection Heq as Ha Hk Hc. subst alg key claims'.
  unfold jwt_decode. simpl in *.
  rewrite (bool_decide_eq_true_2 (ALGORITHM cfg ∈ [ALGORITHM cfg]))
    by constructor.
  rewrite (bool_decide_eq_true_2 (ALGORITHM cfg ∈ SUPPORTED)) by done.
  rewrite (bool_decide_eq_true_2 (SECRET_KEY cfg = SECRET_KEY cfg)) by done.
  simpl.
  by rewrite (proj2 (validate_claims_Return now (ALGORITHM cfg)
                       (SECRET_KEY cfg) claims)).
Qed.

(** With an HMAC algorithm configured and no null time claim, whatever the
    decoder raises is a JWTError. *)
Lemma jwt_decode_Raise cfg now token e :
  ALGORITHM cfg ∈ SUPPORTED → time_claims_typed (token_claims token) →
  jwt_decode now token (SECRET_KEY cfg) [ALGORITHM cfg] = Raise e →
  is_JWTError e = true.
Proof.
  intros Hsup Htyped. unfold jwt_decode.
  destruct token as [alg k claims|raw]; [|by intros [= <-]].
  case_bool_decide as Halg; simpl; [|by intros [= <-]].
  apply list_elem_of_singleton in Halg as ->.
  rewrite (bool_decide_eq_true_2 (ALGORITHM cfg ∈ SUPPORTED)) by done. simpl.
  case_bool_decide; simpl; [|by intros [= <-]].
  destruct (validate_claims now claims) as [[]|e'] eqn:Hv; simpl; [done|].
  intros [= <-]. by eapply validate_claims_Raise.
Qed.

Lemma jwt_decode_defective cfg now token :
  ALGORITHM cfg ∈ SUPPORTED →
  ¬ signature_valid cfg token ∨ ¬ algorithm_matches cfg token
  ∨ (expired now token ∧ time_claims_typed (token_claims token)) →
  ∃ msg, jwt_decode now token (SECRET_KEY cfg) [ALGORITHM cfg] = Raise (JWTError msg).
Proof.
  intros Hsup Hdef.
  destruct (jwt_decode now token (SECRET_KEY cfg) [ALGORITHM cfg]) as [p|e] eqn:Hd.
  - exfalso.
    apply jwt_decode_Return in Hd as (alg & -> & Halg & _ & Hexp & _).
    apply list_elem_of_singleton in Halg as ->.
    destruct Hdef as [Hs|[Ha|[(v & exp & Hlook & Hint & Hlt) _]]].
    + apply Hs. by exists (ALGORITHM cfg), p.
    + apply Ha. by exists (SECRET_KEY cfg), p.
    + unfold unexpired in Hexp. simpl in *. rewrite Hlook in Hexp.
      destruct Hexp as (exp' & Hint' & Hle). rewrite Hint in Hint'.
      injection Hint' as <-. lia.
  - assert (HJ : is_JWTError e = true); [|destruct e; try done; eauto].
    destruct Hdef as [Hs|[Ha|[_ Htyped]]];
      [| |by eapply jwt_decode_Raise].
    + revert Hd. unfold jwt_decode.
      destruct token as [alg k claims|raw]; [|by intros [= <-]].
      case_bool_decide as Halg; simpl; [|by intros [= <-]].
      apply list_elem_of_singleton in Halg as ->.
      rewrite (bool_decide_eq_true_2 (ALGORITHM cfg ∈ SUPPORTED)) by done.
      simpl. case_bool_decide as Hkey; simpl; [|by intros [= <-]].
      subst k. exfalso. apply Hs. by exists (ALGORITHM cfg), claims.
    + revert Hd. unfold jwt_decode.
      destruct token as [alg k claims|raw]; [|by intros [= <-]].
      case_bool_decide as Halg; simpl; [|by intros [= <-]].
      apply list_elem_of_singleton in Halg as ->.
      exfalso. apply Ha. by exists k, claims.
Qed.

Lemma signed_well_signed cfg claims :
  ALGORITHM cfg ∈ SUPPORTED → well_signed cfg (signed cfg claims).
Proof.
  intros Hsup. split.
  - by exists (ALGORITHM cfg), claims.
  - by exists (SECRET_KEY cfg), claims.
Qed.

(** A sample token is well signed under the sample settings. *)
Lemma well_signed_cfg0 claims :
  well_signed cfg0 (Jws "HS256" "default secret" claims).
Proof.
  split.
  - exists "HS256", claims. split; [reflexivity | constructor].
  - by exists "default secret", claims.
Qed.

Lemma SUPPORTED_cfg0 : ALGORITHM cfg0 ∈ SUPPORTED.
Proof. constructor. Qed.

(** ** Token verification (C1, C2) *)




(** C2, as amended. A well-signed, unexpired refresh token with subject
    [s] whose other registered claims pass the decoder's checks is exchanged
    for a newly minted access token, the token the server signs at [now] for
    the subject [s] alone with an expiry twenty minutes later, with
    token_type "bearer"; that token verifies with subject [s]. This is the
    response on every database, whatever its refresh_token columns hold,
    and the database is left as it was. *)
Theorem C2_refresh_mints_access_token cfg now token s :
  well_signed cfg token → unexpired now token →
  other_claims_valid now (token_claims token) →
  token_claims token !! "sub" = Some (VStr s) →
  let minted :=
    signed cfg (<["exp" := VInt (now + minutes 20)]> {[ "sub" := VStr s ]}) in
  auth_procedures.refresh_access_token cfg now token
  = Return (Dict [("access_token", FToken minted);
                  ("token_type", FStr "bearer")])
  ∧ routes_jwt.verify_token cfg now minted
    = Return (<["exp" := VInt (now + minutes 20)]> {[ "sub" := VStr s ]})
  ∧ (∀ (auth_service : AuthService) ilike db,
       serve cfg ilike now (POST_token_refresh token) db
       = (Return (Dict [("access_token", FToken minted);
                        ("token_type", FStr "bearer")], []), db)).
Proof.
  intros Hsig Hexp Hother Hsub minted.
  assert (Hsup : ALGORITHM cfg ∈ SUPPORTED).
  { destruct Hsig as [(alg & c & -> & Hsup) (k & c' & Heq)]. by simplify_eq. }
  assert (Hrefresh : auth_procedures.refresh_access_token cfg now token
                     = Return (Dict [("access_token", FToken minted);
                                     ("token_type", FStr "bearer")])).
  { unfold auth_procedures.refresh_access_token, routes_jwt.verify_token.
    rewrite (jwt_decode_well_signed _ _ _ Hsig Hexp Hother);
      [|by unfold subject_ok; rewrite Hsub].
    simpl. rewrite Hsub. simpl.
    unfold routes_jwt.create_access_token, jwt_encode. simpl.
    by rewrite bool_decide_eq_true_2. }
  split_and!; [done | |].
  - unfold routes_jwt.verify_token.
    rewrite (jwt_decode_well_signed cfg now minted); [done|..].
    + by apply signed_well_signed.
    + unfold unexpired, minted, minutes. simpl. rewrite lookup_insert_eq.
      exists (now + 20 * 60). split; [done | lia].
    + unfold other_claims_valid, minted. simpl.
      by rewrite !lookup_insert_ne, !lookup_singleton_ne.
    + unfold subject_ok, minted. simpl.
      by rewrite lookup_insert_ne, lookup_singleton_eq.
  - intros auth_service ilike db. unfold serve, run, handle, plain. simpl.
    by rewrite Hrefresh.
Qed.

(** C2 holds of ann's refresh token. *)
Lemma C2_refresh_mints_access_token_witness :
  auth_procedures.refresh_access_token cfg0 1000 token_ann
  = Return (Dict [("access_token",
                   FToken (signed cfg0 {[ "sub" := VStr "ann@example.com";
                                          "exp" := VInt 2200 ]}));
                  ("token_type", FStr "bearer")]).
Proof.
  destruct (C2_refresh_mints_access_token cfg0 1000 token_ann "ann@example.com")
    as (Heq & _).
  - apply well_signed_cfg0.
  - by vm_compute; exists 2000.
  - by vm_compute.
  - reflexivity.
  - rewrite Heq. reflexivity.
Defined.

(** C2 as stated fails: a token the server signed for ann, not expired,
    that names an audience is refused with the 401, since the handler
    decodes it without an audience. *)
Lemma C2_audience_claim_refused :
  well_signed cfg0 token_with_aud
  ∧ unexpired 1000 token_with_aud
  ∧ token_claims token_with_aud !! "sub" = Some (VStr "ann@example.com")
  ∧ auth_procedures.refresh_access_token cfg0 1000 token_with_aud
    = Raise credentials_exception.
Proof.
  split_and!; try done.
  - apply well_signed_cfg0.
  - by vm_compute; exists 2000.
Qed.

(** ** Passwords (C3) *)

(** C3, as amended. [get_user] returns the user when the stored hash is a
    bcrypt digest of the password, and None, without error, when no row has
    the email or the stored digest was computed from another password. When
    the stored hash is no well-formed bcrypt digest the hasher raises where
    the claim has it return false, UnknownHashError for a string without
    bcrypt prefix and another ValueError for one with it, and [get_user]
    lets the error pass. In every case the database is left as it was. *)
Theorem C3_verify_and_get_user db email password :
  match List.find (λ u, bool_decide (User.email u = email)) (users db) with
  | None =>
      run (auth_procedures.get_user email password Injected) db
      = (Return None, db)
  | Some u =>
      match User.password u with
      | Bcrypt _ original =>
          run (auth_procedures.get_user email password Injected) db
          = (Return (if bool_decide (password = original) then Some u else None),
             db)
      | Plain raw =>
          ∃ e, run (auth_procedures.get_user email password Injected) db
               = (Raise e, db)
               ∧ is_ValueError e = true
               ∧ (bcrypt_identify raw = false →
                  e = UnknownHashError "hash could not be identified")
      end
  end.
Proof.
  unfold auth_procedures.get_user. exec.
  destruct (List.find _ (users db)) as [u|] eqn:Hfind; simpl; [|done].
  unfold pwd_context_verify. destruct (User.password u) as [salt original|raw];
    simpl.
  - by case_bool_decide.
  - destruct (bcrypt_identify raw); simpl; eexists; split_and!; done.
Qed.

(** C3 as stated fails: on a stored string that is no bcrypt digest
    [verify] raises instead of returning false, and [get_user] raises
    instead of returning None. *)
Lemma C3_malformed_digest_raises :
  pwd_context_verify "password123" (Plain "password123")
  = Raise (UnknownHashError "hash could not be identified")
  ∧ run (auth_procedures.get_user "bob@example.com" "password123" Injected)
      two_users
    = (Raise (UnknownHashError "hash could not be identified"), two_users)
  ∧ run (auth_procedures.get_user "bob@example.com" "password123" Injected)
      two_users
    ≠ (Return None, two_users).
Proof. split_and!; done. Qed.

(** ** The confirmation flag (C4) *)

Lemma flags_kept_refl us : flags_kept us us.
Proof. intros i u Hi. eauto. Qed.

Lemma flags_kept_trans us1 us2 us3 :
  flags_kept us1 us2 → flags_kept us2 us3 → flags_kept us1 us3.
Proof.
  intros H12 H23 i u Hi.
  destruct (H12 i u Hi) as (u2 & Hi2 & Hid2 & Hc2).
  destruct (H23 i u2 Hi2) as (u3 & Hi3 & Hid3 & Hc3).
  exists u3. split_and!; [done | congruence | auto].
Qed.

Lemma flags_kept_app us new : flags_kept us (us ++ new).
Proof.
  intros i u Hi. exists u. split_and!; [|done..].
  by apply lookup_app_l_Some.
Qed.

Lemma flags_kept_fmap f us : harmless f → flags_kept us (f <$> us).
Proof.
  intros Hf i u Hi. exists (f u). rewrite list_lookup_fmap, Hi.
  destruct (Hf u). done.
Qed.

Lemma flags_kept_flush new us : flags_kept us (flush_users new us).
Proof.
  revert us. induction new as [|u new IH]; intros us; simpl.
  - apply flags_kept_refl.
  - eapply flags_kept_trans; [apply flags_kept_app | apply IH].
Qed.

Lemma harmless_row id f :
  harmless f → harmless (λ u, if bool_decide (User.id u = id) then f u else u).
Proof. intros Hf u. case_bool_decide; [apply Hf | done]. Qed.

Lemma harmless_set_confirmed : harmless (User.set_confirmed true).
Proof. by intros []. Qed.

Lemma harmless_set_refresh_token v : harmless (User.set_refresh_token v).
Proof. by intros []. Qed.

Lemma harmless_set_avatar v : harmless (User.set_avatar v).
Proof. by intros []. Qed.

(** The rules of [keeps], one per construct of the handlers. *)
Section keeps_rules.
Context {A B : Type}.

Lemma keeps_ret (a : A) : keeps (mret a).
Proof.
  intros s r s' Hs [= <- <-]. split; [done | apply flags_kept_refl].
Qed.

Lemma keeps_raise e : keeps (@raise A e).
Proof.
  intros s r s' Hs [= <- <-]. split; [done | apply flags_kept_refl].
Qed.

Lemma keeps_lift (r : result A) : keeps (lift r).
Proof.
  intros s r' s' Hs [= <- <-]. split; [done | apply flags_kept_refl].
Qed.

Lemma keeps_bind (m : M A) (f : A → M B) :
  keeps m → (∀ a, keeps (f a)) → keeps (m ≫= f).
Proof.
  intros Hm Hf s r s' Hs. unfold mbind, M_bind.
  destruct (m s) as [[a|e] s1] eqn:Hms.
  - intros Hfa. destruct (Hm _ _ _ Hs Hms) as [Hs1 Hk1].
    destruct (Hf a _ _ _ Hs1 Hfa) as [Hs' Hk'].
    split; [done | by eapply flags_kept_trans].
  - intros [= <- <-]. by apply (Hm _ _ _ Hs Hms).
Qed.

Lemma keeps_bind_Return (a : A) (k : A → M B) :
  keeps (k a) → keeps (lift (Return a) ≫= k).
Proof. intros Hk s r s' Hs. apply (Hk s r s' Hs). Qed.

Lemma keeps_bind_Raise e (k : A → M B) : keeps (lift (Raise e) ≫= k).
Proof.
  intros s r s' Hs [= <- <-]. split; [done | apply flags_kept_refl].
Qed.

Lemma keeps_try (body : M A) catches handler :
  keeps body → (∀ e, keeps (handler e)) →
  keeps (try_except_M body catches handler).
Proof.
  intros Hm Hh s r s' Hs. unfold try_except_M.
  destruct (body s) as [[a|e] s1] eqn:Hms.
  - intros [= <- <-]. by apply (Hm _ _ _ Hs Hms).
  - destruct (Hm _ _ _ Hs Hms) as [Hs1 Hk1].
    destruct (catches e).
    + intros Hhe. destruct (Hh e _ _ _ Hs1 Hhe) as [Hs' Hk'].
      split; [done | by eapply flags_kept_trans].
    + by intros [= <- <-].
Qed.
End keeps_rules.

Lemma keeps_await {A} `{PyType A} (call : callable (M A)) :
  (∀ body, call = Def body ∨ call = AsyncDef body → keeps body) →
  keeps (await call).
Proof.
  intros Hbody. destruct call as [body|body]; simpl.
  - apply keeps_bind; [by apply Hbody; left | intros a; apply keeps_raise].
  - by apply Hbody; right.
Qed.

Lemma keeps_commit : keeps commit.
Proof.
  intros s r s' Hs. unfold commit.
  destruct (flush_contacts _ _) as [cs|e]; intros [= <- <-].
  - split; [apply flags_kept_refl|]. simpl.
    eapply flags_kept_trans; [apply Hs | apply flags_kept_flush].
  - split; [done | apply flags_kept_refl].
Qed.

Lemma keeps_rollback : keeps rollback.
Proof.
  intros s r s' Hs [= <- <-]. split; apply flags_kept_refl.
Qed.

Lemma keeps_assign_user id f : harmless f → keeps (assign_user id f).
Proof.
  intros Hf s r s' Hs [= <- <-]. split; [|apply flags_kept_refl].
  unfold ahead. simpl.
  eapply flags_kept_trans; [apply Hs|].
  by apply flags_kept_fmap, harmless_row.
Qed.

(** A step that leaves both copies of the User table alone. *)
Lemma keeps_users_untouched {A} (m : M A) :
  (∀ s r s', m s = (r, s') →
     users (committed s') = users (committed s)
     ∧ users (working s') = users (working s)) →
  keeps m.
Proof.
  intros Hm s r s' Hs Hr. destruct (Hm _ _ _ Hr) as [Hc Hw].
  unfold ahead. rewrite Hc, Hw. split; [done | apply flags_kept_refl].
Qed.

Lemma keeps_session_query db : keeps (session_query db).
Proof. destruct db; [apply keeps_ret | apply keeps_raise]. Qed.

Lemma keeps_add_user u : keeps (add_user u).
Proof. apply keeps_users_untouched. by intros s r s' [= <- <-]. Qed.

Lemma keeps_add_contact c : keeps (add_contact c).
Proof. apply keeps_users_untouched. by intros s r s' [= <- <-]. Qed.

Lemma keeps_query_user_first cond : keeps (query_user_first cond).
Proof. apply keeps_users_untouched. by intros s r s' [= <- <-]. Qed.

Lemma keeps_query_contact_get id : keeps (query_contact_get id).
Proof. apply keeps_users_untouched. by intros s r s' [= <- <-]. Qed.

Lemma keeps_query_contacts_all cond : keeps (query_contacts_all cond).
Proof. apply keeps_users_untouched. by intros s r s' [= <- <-]. Qed.

Lemma keeps_refresh_user obj : keeps (refresh_user obj).
Proof. apply keeps_users_untouched. by intros s r s' [= <- <-]. Qed.

Lemma keeps_assign_contact id f : keeps (assign_contact id f).
Proof. apply keeps_users_untouched. by intros s r s' [= <- <-]. Qed.

Lemma keeps_delete_row id : keeps (delete_row id).
Proof. apply keeps_users_untouched. by intros s r s' [= <- <-]. Qed.

Create HintDb keeps.
#[local] Hint Resolve keeps_ret keeps_raise keeps_lift keeps_commit
  keeps_rollback keeps_assign_user keeps_session_query keeps_add_user
  keeps_add_contact keeps_query_user_first keeps_query_contact_get
  keeps_query_contacts_all keeps_refresh_user keeps_assign_contact
  keeps_delete_row harmless_set_confirmed harmless_set_refresh_token
  harmless_set_avatar : keeps.

(** Walks a handler along its binds, branches and try blocks. *)
Ltac keeps_walk :=
  repeat first
    [ match goal with
      | |- keeps (lift (Return _) ≫= _) => apply keeps_bind_Return; cbv beta
      | |- keeps (lift (Raise _) ≫= _) => apply keeps_bind_Raise
      end
    | apply keeps_bind; [|intros ?; cbv beta]
    | apply keeps_try; [|intros ?; cbv beta]
    | apply keeps_await; intros ? [[= <-]|[= <-]]
    | progress eauto with keeps
    | match goal with
      | |- keeps (match ?x with _ => _ end) => destruct x
      | |- keeps (if ?b then _ else _) => destruct b
      end ].

(** Computes the attribute lookups of routes/auth.py on the module
    src/repository/users.py and on a service. *)
Ltac lookup_attributes :=
  cbn [repository_attribute service_attribute users_module get_user_by_email
       create_user update_token confirmed_email object].

Lemma keeps_handle cfg (auth_service : AuthService) ilike now req :
  keeps (handle cfg ilike now req).
Proof.
  destruct req as [| | | | | | | | | | | | | | | | | | | | | | | | | |? []];
    unfold handle, plain;
    unfold auth_procedures.login_for_access_token,
      auth_procedures.verify_user_email, auth_procedures.get_user,
      routes.signup, routes.login, routes.read_secret, routes.update_avatar,
      routes_jwt.update_user_avatar, auth.signup, auth.login,
      auth.confirmed_email, auth.request_email, users.create_user,
      users.update_token, users.confirm_email,
      users.update_avatar, users.get_user_by_email,
      repository_contacts.create_new_contact,
      repository_contacts.get_all_contacts_list,
      repository_contacts.get_contact, repository_contacts.update_contact,
      repository_contacts.delete_contact, router_endpoints.create_new_contact,
      router_endpoints.get_all_contacts_list, router_endpoints.get_contact,
      router_endpoints.update_contact, router_endpoints.delete_contact,
      router_endpoints.get_specific_contacts_list,
      router_endpoints.get_upcoming_birthdays,
      router_contacts.create_new_contact, router_contacts.get_all_contact_list,
      router_contacts.get_contact, router_contacts.update_contact,
      router_contacts.delete_contact, auth_procedures.active_user,
      auth_procedures.get_current_user, auth_procedures.get_user,
      internal_server_error;
    lookup_attributes; keeps_walk.
Qed.

Lemma find_fmap_row {A} (p : A → bool) (f : A → A) (l : list A) :
  (∀ a, p (f a) = p a) → List.find p (f <$> l) = f <$> List.find p l.
Proof.
  intros Hp. induction l as [|a l IH]; [done|]. simpl.
  rewrite Hp. by destruct (p a).
Qed.


(** ** Awaits *)

(** An await that returns was made on the call of a coroutine function. *)
Lemma await_Return {A} `{PyType A} (call : callable (M A)) s a s' :
  await call s = (Return a, s') →
  ∃ body, call = AsyncDef body ∧ body s = (Return a, s').
Proof.
  destruct call as [body|body]; simpl; [|by eauto].
  unfold mbind, M_bind. by destruct (body s) as [[a'|e] s1].
Qed.

Lemma await_value_Return {A} `{PyType A} (call : callable (result A)) a :
  await_value call = Return a → call = AsyncDef (Return a).
Proof. destruct call as [[a'|e]|body]; simpl; try done. by intros ->. Qed.

(** Splits on an innermost scrutinee of the goal. *)
Ltac case_inner :=
  match goal with
  | |- context [match ?x with _ => _ end] =>
      lazymatch x with
      | context [match _ with _ => _ end] => fail
      | _ => destruct x eqn:?
      end
  end.

(** C4, what the code does. Serving any request keeps every User row and
    keeps it confirmed if it was. Through [verify_user_email] the
    confirmation of an unconfirmed user commits the flag, after which the
    row found under the email is confirmed, and the confirmation of a
    confirmed user succeeds and leaves the session as it was opened, with
    no commit. The second path confirms no one: [confirmed_email], called
    with src/repository/users.py as its repository, ends in an exception
    for every token and every auth service, with nothing written, as it
    does with the None its parameters default to; and the coroutine
    [confirm_email] of the repository raises TypeError, at its await of
    what [get_user_by_email] returned, before it assigns the flag. *)
Theorem C4_confirmed_flag_monotone :
  (∀ cfg (auth_service : AuthService) ilike now req db r db',
     serve cfg ilike now req db = (r, db') → flags_kept (users db) (users db'))
  ∧ (∀ cfg now token email user db,
       well_signed cfg token → unexpired now token →
       other_claims_valid now (token_claims token) →
       token_claims token !! "sub" = Some (VStr email) →
       List.find (email_is (VStr email)) (users db) = Some user →
       auth_procedures.verify_user_email cfg now token (open_session db)
       = (Return (Dict [("message", FStr "Email verification successful!");
                        ("status_code", FInt 200)]),
          after_confirmation db user)
       ∧ ∃ user',
           List.find (email_is (VStr email))
             (users (committed (after_confirmation db user))) = Some user'
           ∧ User.confirmed user' = true)
  ∧ (∀ (auth_service : AuthService) token db,
       ∃ e, run (auth.confirmed_email token (Some auth_service)
                   (Some users_module)) db
            = (Raise e, db))
  ∧ (∀ token db,
       run (auth.confirmed_email token None None) db
       = (Raise (AttributeError
                   "'NoneType' object has no attribute 'get_email_from_token'"),
          db))
  ∧ (∀ email db,
       ∃ msg, run (users.confirm_email email) db = (Raise (TypeError msg), db)).
Proof.
  split_and!.
  - intros cfg auth_service ilike now req db r db'. unfold serve, run.
    destruct (handle cfg ilike now req (open_session db)) as [r0 s] eqn:Hh.
    intros [= <- <-].
    destruct (keeps_handle cfg auth_service ilike now req
                (open_session db) r0 s) as [_ Hk];
      [apply flags_kept_refl | done | exact Hk].
  - intros cfg now token email user db Hsig Hexp Hother Hsub Hfind. split.
    + unfold auth_procedures.verify_user_email, after_confirmation.
      rewrite (jwt_decode_well_signed _ _ _ Hsig Hexp Hother);
        [|by unfold subject_ok; rewrite Hsub].
      exec. rewrite Hsub. simpl. rewrite Hfind.
      by destruct (User.confirmed user).
    + unfold after_confirmation.
      destruct (User.confirmed user) eqn:Hc; simpl; [by eauto|].
      unfold confirm_row. rewrite find_fmap_row, Hfind.
      * simpl. eexists. split; [done|].
        case_bool_decide; [by destruct user | done].
      * intros u. destruct (bool_decide (User.id u = User.id user));
          [by destruct u | done].
  - intros auth_service token db. unfold auth.confirmed_email.
    lookup_attributes. unfold users.get_user_by_email. exec.
    destruct (get_email_from_token token) as [[email|e]|[email|e]]; simpl;
      by eauto.
  - intros token db. by exec.
  - intros email db. unfold users.confirm_email, users.get_user_by_email.
    exec. destruct (List.find _ (users db)); simpl; by eauto.
Qed.

(** C4 on bob, who is unconfirmed: [verify_user_email] confirms him with
    one commit. *)
Lemma C4_confirmed_flag_monotone_witness :
  auth_procedures.verify_user_email cfg0 1000 token_bob (open_session two_users)
  = (Return (Dict [("message", FStr "Email verification successful!");
                   ("status_code", FInt 200)]),
     after_confirmation two_users bob)
  ∧ flags_kept (users two_users)
      (users (serve cfg0 (auth_service := helpers_auth_service cfg0 1000 "salt")
                (λ _ _, false) 1000 (GET_confirmed_email token_bob)
                two_users).2).
Proof.
  destruct C4_confirmed_flag_monotone as (Hmono & Hverify & _).
  split.
  - apply (Hverify cfg0 1000 token_bob "bob@example.com" bob two_users).
    + apply well_signed_cfg0.
    + by vm_compute; exists 2000.
    + by vm_compute.
    + reflexivity.
    + reflexivity.
  - eapply (Hmono cfg0 (helpers_auth_service cfg0 1000 "salt")).
    apply surjective_pairing.
Defined.

(** ** Login (C5, C6) *)




Lemma verify_token_Raise cfg now token e :
  ALGORITHM cfg ∈ SUPPORTED → time_claims_typed (token_claims token) →
  routes_jwt.verify_token cfg now token = Raise e → e = credentials_exception.
Proof.
  intros Hsup Htyped. unfold routes_jwt.verify_token.
  destruct (jwt_decode _ _ _ _) as [p|e'] eqn:Hd; simpl; [done|].
  rewrite (jwt_decode_Raise _ _ _ _ Hsup Htyped Hd). by intros [= <-].
Qed.

Lemma refresh_access_token_Raise cfg now token e :
  ALGORITHM cfg ∈ SUPPORTED → time_claims_typed (token_claims token) →
  auth_procedures.refresh_access_token cfg now token = Raise e →
  e = credentials_exception.
Proof.
  intros Hsup Htyped.
  unfold auth_procedures.refresh_access_token, routes_jwt.verify_token.
  destruct (jwt_decode _ _ _ _) as [p|e'] eqn:Hd; simpl.
  - unfold routes_jwt.create_access_token, jwt_encode.
    rewrite bool_decide_eq_true_2 by done.
    destruct (p !! "sub") as [[]|]; simpl; by intros [= <-].
  - rewrite (jwt_decode_Raise _ _ _ _ Hsup Htyped Hd). simpl. by intros [= <-].
Qed.

Lemma get_current_user_Raise cfg now token db e :
  ALGORITHM cfg ∈ SUPPORTED → time_claims_typed (token_claims token) →
  token_claims token !! "sub" ≠ None →
  (run (auth_procedures.get_current_user cfg now token) db).1 = Raise e →
  e = credentials_exception.
Proof.
  intros Hsup Htyped Hsub. unfold auth_procedures.get_current_user. exec.
  destruct (jwt_decode _ _ _ _) as [p|e'] eqn:Hd; simpl.
  - apply jwt_decode_Return in Hd as (alg & -> & _). simpl in Hsub.
    destruct (p !! "sub") as [[]|]; simpl; [by intros [= <-]| | |done];
      destruct (List.find _ _); simpl; by intros [= <-].
  - rewrite (jwt_decode_Raise _ _ _ _ Hsup Htyped Hd). simpl. by intros [= <-].
Qed.




(** ** Contacts (C7, C8) *)

(** The dependency on the active user reads the session and leaves it as it
    was. *)
Lemma active_user_session cfg now token s r s' :
  auth_procedures.active_user cfg now token s = (r, s') → s' = s.
Proof.
  unfold auth_procedures.active_user, auth_procedures.get_current_user. exec.
  destruct (jwt_decode _ _ _ _) as [p|e]; simpl.
  - destruct (p !! "sub") as [[]|]; simpl; try by intros [= <- <-].
    + destruct (List.find _ _); simpl; intros [= <- <-]; done.
    + destruct (List.find _ _); simpl; intros [= <- <-]; done.
  - destruct (is_JWTError e); simpl; by intros [= <- <-].
Qed.

(** C7, what the code does. For a contact id absent from the store,
    [update_contact] leaves the store unchanged, but the 404 it raises
    inside its try block is caught by its own except clause, which raises
    an HTTPException of status 500 in its place; so it is in
    src/repository/contacts.py and, for a request that passes the auth
    gate, in src/routes/router_endpoints.py. *)
Theorem C7_update_absent_contact db contact_id updated_contact :
  contacts db !! contact_id = None →
  (∃ detail,
     run (repository_contacts.update_contact contact_id updated_contact) db
     = (Raise (HTTPException 500 detail []), db))
  ∧ ∀ cfg now token user,
      (run (auth_procedures.active_user cfg now token) db).1 = Return user →
      ∃ detail,
        run (router_endpoints.update_contact cfg now token contact_id
               updated_contact) db
        = (Raise (HTTPException 500 detail []), db).
Proof.
  intros Habsent. split.
  - eexists. unfold repository_contacts.update_contact. exec.
    by rewrite Habsent.
  - intros cfg now token user.
    unfold router_endpoints.update_contact, run.
    unfold mbind at 1. unfold M_bind at 1.
    destruct (auth_procedures.active_user cfg now token (open_session db))
      as [r s] eqn:Hgate.
    apply active_user_session in Hgate as ->. simpl. intros ->.
    eexists. exec. by rewrite Habsent.
Qed.

(** C7 on the empty store: the response has status 500, not 404. *)
Lemma C7_update_absent_contact_witness :
  ∃ detail,
    run (repository_contacts.update_contact 1 john) no_rows
    = (Raise (HTTPException 500 detail []), no_rows).
Proof.
  apply (C7_update_absent_contact no_rows 1 john). reflexivity.
Defined.


(** C8, as amended. For every payload whose id the store does not hold yet
    and that fits the INTEGER key, [create_new_contact] succeeds, and
    [get_contact] on that id then succeeds and returns a row with the first
    name, last name, email, phone number, birth date and additional data of
    the payload. After [delete_contact] of an id the store holds,
    [get_contact] on that id fails with 404 "Contact not found". *)
Theorem C8_create_get_delete_get db :
  (∀ c, contacts db !! UserContact.contact_id c = None →
     INTEGER (UserContact.contact_id c) = true →
     ∃ db' row,
       run (repository_contacts.create_new_contact c) db
       = (Return (ContactBody c), db')
       ∧ run (repository_contacts.get_contact (UserContact.contact_id c)) db'
         = (Return (ContactRow row), db')
       ∧ Contact.first_name row = UserContact.first_name c
       ∧ Contact.last_name row = UserContact.last_name c
       ∧ Contact.email row = UserContact.email c
       ∧ Contact.phone_number row = UserContact.phone_number c
       ∧ Contact.birth_date row = UserContact.birth_date c
       ∧ Contact.additional_data row = UserContact.additional_info c)
  ∧ (∀ contact_id, is_Some (contacts db !! contact_id) →
       ∃ db',
         run (repository_contacts.delete_contact contact_id) db
         = (Return (Dict [("message", FStr "Success!")]), db')
         ∧ run (repository_contacts.get_contact contact_id) db'
           = (Raise (HTTPException 404 "Contact not found" []), db')).
Proof.
  split.
  - intros c Hfree Hfits.
    exists (mkStore (users db)
              (<[UserContact.contact_id c := Contact_of c]> (contacts db))),
           (Contact_of c).
    split_and!; try done.
    + unfold repository_contacts.create_new_contact. exec.
      by rewrite Hfits, Hfree.
    + unfold repository_contacts.get_contact. exec.
      by rewrite lookup_insert_eq.
  - intros contact_id [row Hrow].
    exists (mkStore (users db) (delete contact_id (contacts db))).
    split.
    + unfold repository_contacts.delete_contact. exec. by rewrite Hrow.
    + unfold repository_contacts.get_contact. exec.
      by rewrite lookup_delete_eq.
Qed.

(** C8 holds of steve on the empty store and on the store that holds
    him. *)
Lemma C8_create_get_delete_get_witness :
  (∃ db' row,
     run (repository_contacts.create_new_contact steve) no_rows
     = (Return (ContactBody steve), db')
     ∧ run (repository_contacts.get_contact 1) db'
       = (Return (ContactRow row), db')
     ∧ Contact.first_name row = "Steve")
  ∧ (∃ db',
       run (repository_contacts.delete_contact 1) ann_and_steve
       = (Return (Dict [("message", FStr "Success!")]), db')
       ∧ run (repository_contacts.get_contact 1) db'
         = (Raise (HTTPException 404 "Contact not found" []), db')).
Proof.
  destruct (C8_create_get_delete_get no_rows) as (Hcreate & _).
  destruct (C8_create_get_delete_get ann_and_steve) as (_ & Hdelete).
  split.
  - destruct (Hcreate steve) as (db' & row & Hrun & Hget & Hfirst & _);
      [reflexivity | reflexivity |].
    by exists db', row.
  - apply (Hdelete 1). by exists (Contact_of steve).
Defined.

(** C8 as stated fails: a payload whose id the store holds already is not
    created, the request ends with status 500 and the row under that id is
    the one that was there; and a payload whose id does not fit the INTEGER
    key is not created either, on the empty store. *)
Lemma C8_create_not_for_every_payload :
  (∃ detail,
     run (repository_contacts.create_new_contact john) ann_and_steve
     = (Raise (HTTPException 500 detail []), ann_and_steve))
  ∧ run (repository_contacts.get_contact (UserContact.contact_id john))
      ann_and_steve
    = (Return (ContactRow (Contact_of steve)), ann_and_steve)
  ∧ Contact.first_name (Contact_of steve) ≠ UserContact.first_name john
  ∧ (∃ detail,
       run (repository_contacts.create_new_contact
              (UserContact.mk (2 ^ 63) "John" "Doe" "john.doe@example.com"
                 "123456789" (datetime 1990 1 1) None)) no_rows
       = (Raise (HTTPException 500 detail []), no_rows)).
Proof. split_and!; [by eexists | done | done | by eexists]. Qed.

(** ** Upcoming birthdays (C9) *)

Lemma days_before_year_succ year :
  days_before_year (year + 1)
  = days_before_year year + (if is_leap year then 366 else 365).
Proof.
  unfold days_before_year, is_leap.
  replace (year + 1 - 1) with year by lia.
  destruct (Z.eqb_spec (year mod 4) 0), (Z.eqb_spec (year mod 100) 0),
    (Z.eqb_spec (year mod 400) 0); simpl;
    Z.div_mod_to_equations; lia.
Qed.

Lemma days_before_year_mono y1 y2 :
  y1 ≤ y2 → days_before_year y1 ≤ days_before_year y2.
Proof.
  intros Hle. unfold days_before_year. Z.div_mod_to_equations. lia.
Qed.

Lemma days_before_month_bounds year month day :
  1 ≤ month ≤ 12 → 1 ≤ day ≤ days_in_month year month →
  1 ≤ days_before_month year month + day
    ≤ (if is_leap year then 366 else 365).
Proof.
  intros Hm Hd.
  assert (Hcases : month = 1 ∨ month = 2 ∨ month = 3 ∨ month = 4 ∨ month = 5
                   ∨ month = 6 ∨ month = 7 ∨ month = 8 ∨ month = 9
                   ∨ month = 10 ∨ month = 11 ∨ month = 12) by lia.
  unfold days_before_month, days_in_month in *.
  destruct_or! Hcases; subst month; simpl in *;
    destruct (is_leap year); simpl in *; lia.
Qed.

(** A date of an earlier year lies before the first day of a later year,
    and a date of a later year does not lie before it. *)
Lemma datetime_years year month day Y :
  1 ≤ month ≤ 12 → 1 ≤ day ≤ days_in_month year month →
  (year < Y → datetime year month day < datetime Y 1 1)
  ∧ (Y ≤ year → datetime Y 1 1 ≤ datetime year month day).
Proof.
  intros Hm Hd.
  pose proof (days_before_month_bounds year month day Hm Hd) as Hb.
  pose proof (days_before_year_succ year) as Hs.
  unfold datetime, days, ymd2ord.
  change (days_before_month Y 1) with 0.
  split; intros Hy.
  - pose proof (days_before_year_mono (year + 1) Y). lia.
  - pose proof (days_before_year_mono Y year). lia.
Qed.

(** C9. For a request that passes the auth gate, the handler returns
    exactly the stored contacts whose birth_date lies in
    [today, today + 7 days], compared as points in time. So a contact born
    on a date of a year before the year of [today], or of a year after the
    year in which [today + 7 days] falls, is not returned, whatever its
    month and day. *)
Theorem C9_upcoming_birthdays cfg now token user today db :
  (run (auth_procedures.active_user cfg now token) db).1 = Return user →
  ∃ upcoming,
    run (router_endpoints.get_upcoming_birthdays cfg now token today) db
    = (Return upcoming, db)
    ∧ (∀ c, c ∈ upcoming ↔
            (∃ key, contacts db !! key = Some c)
            ∧ today ≤ Contact.birth_date c ≤ today + days 7)
    ∧ (∀ c year month day Y,
         Contact.birth_date c = datetime year month day →
         1 ≤ month ≤ 12 → 1 ≤ day ≤ days_in_month year month →
         (year < Y ∧ datetime Y 1 1 ≤ today)
         ∨ (Y < year ∧ today + days 7 < datetime (Y + 1) 1 1) →
         c ∉ upcoming).
Proof.
  intros Hgate.
  set (in_window := λ c : Contact.t,
         (today <=? Contact.birth_date c)
         && (Contact.birth_date c <=? today + days 7)).
  exists (List.filter in_window (map_to_list (contacts db)).*2).
  assert (Hmem : ∀ c, c ∈ List.filter in_window (map_to_list (contacts db)).*2 ↔
            (∃ key, contacts db !! key = Some c)
            ∧ today ≤ Contact.birth_date c ≤ today + days 7).
  { intros c. rewrite list_elem_of_In, filter_In, <- list_elem_of_In.
    rewrite list_elem_of_fmap. unfold in_window.
    rewrite andb_true_iff, Z.leb_le, Z.leb_le.
    split.
    - intros [([key c'] & -> & Hin) Hw].
      apply elem_of_map_to_list in Hin. split; [by exists key | done].
    - intros [[key Hkey] Hw]. split; [|done].
      exists (key, c). split; [done|]. by apply elem_of_map_to_list. }
  split_and!.
  - revert Hgate. unfold router_endpoints.get_upcoming_birthdays, run.
    unfold mbind at 1. unfold M_bind at 1.
    destruct (auth_procedures.active_user cfg now token (open_session db))
      as [r s] eqn:Hg.
    apply active_user_session in Hg as ->. simpl. intros ->.
    by exec.
  - exact Hmem.
  - intros c year month day Y Hborn Hm Hd Hyear.
    rewrite Hmem, Hborn. intros [_ Hw].
    destruct Hyear as [[Hlt Htoday]|[Hgt Hend]].
    + pose proof (proj1 (datetime_years year month day Y Hm Hd) Hlt). lia.
    + assert (Y + 1 ≤ year) as Hle by lia.
      pose proof (proj2 (datetime_years year month day (Y + 1) Hm Hd) Hle).
      lia.
Qed.

(** C9 holds on 10 November 2024, one hour after midnight: steve, born on
    11 November 2000, is not among the upcoming birthdays. *)
Lemma C9_upcoming_birthdays_witness :
  ∃ upcoming,
    run (router_endpoints.get_upcoming_birthdays cfg0 1000 token_ann
           (datetime 2024 11 10 + 3600)) ann_and_steve
    = (Return upcoming, ann_and_steve)
    ∧ Contact_of steve ∉ upcoming.
Proof.
  destruct (C9_upcoming_birthdays cfg0 1000 token_ann ann
              (datetime 2024 11 10 + 3600) ann_and_steve eq_refl)
    as (upcoming & Hrun & _ & Hyear).
  exists upcoming. split; [exact Hrun|].
  apply (Hyear (Contact_of steve) 2000 11 11 2024).
  - reflexivity.
  - lia.
  - by vm_compute.
  - left. split; [lia | by vm_compute].
Defined.


(** ** Resending the confirmation email (C10) *)




(** * Further properties of the code *)

(** ** Issuing and verifying tokens (src/routes/jwt.py) *)

(** Decoding a token the server signed, at time [t]. *)
Lemma jwt_decode_signed cfg t claims exp :
  ALGORITHM cfg ∈ SUPPORTED → subject_ok claims → unregistered claims →
  jwt_decode t (signed cfg (<["exp" := VInt exp]> claims)) (SECRET_KEY cfg)
    [ALGORITHM cfg]
  = if bool_decide (t ≤ exp) then Return (<["exp" := VInt exp]> claims)
    else Raise (JWTError "Signature has expired.").
Proof.
  intros Hsup Hsub (Hiat & Hnbf & Haud & Hjti & Hhash).
  unfold jwt_decode, signed.
  rewrite (bool_decide_eq_true_2 (ALGORITHM cfg ∈ [ALGORITHM cfg]))
    by constructor.
  rewrite (bool_decide_eq_true_2 (ALGORITHM cfg ∈ SUPPORTED)) by done.
  rewrite (bool_decide_eq_true_2 (SECRET_KEY cfg = SECRET_KEY cfg)) by done.
  simpl.
  unfold validate_claims, validate_iat, validate_nbf, validate_exp,
    validate_aud, validate_sub, validate_jti, validate_at_hash.
  rewrite lookup_insert_eq, !lookup_insert_ne by done.
  rewrite Hiat, Hnbf, Haud, Hjti, Hhash. simpl.
  destruct (Z.ltb_spec exp t); simpl.
  - rewrite bool_decide_eq_false_2 by lia. done.
  - rewrite bool_decide_eq_true_2 by lia. unfold subject_ok in Hsub.
    destruct (claims !! "sub") as [[]|]; done.
Qed.

(** The payload of the repository's own tokens. *)
Lemma subject_only email :
  subject_ok {[ "sub" := VStr email ]} ∧ unregistered {[ "sub" := VStr email ]}.
Proof.
  split; [by unfold subject_ok; rewrite lookup_singleton_eq|].
  unfold unregistered. by rewrite !lookup_singleton_ne.
Qed.

Lemma verify_token_signed cfg t claims exp :
  ALGORITHM cfg ∈ SUPPORTED → subject_ok claims → unregistered claims →
  routes_jwt.verify_token cfg t (signed cfg (<["exp" := VInt exp]> claims))
  = if bool_decide (t ≤ exp) then Return (<["exp" := VInt exp]> claims)
    else Raise credentials_exception.
Proof.
  intros Hsup Hsub Hplain. unfold routes_jwt.verify_token.
  rewrite jwt_decode_signed by done. by case_bool_decide.
Qed.

(** X1. An access token issued at [now] with a non-zero lifetime
    [expires_delta], for data whose subject, if any, is a string and that
    carries none of the other claims the decoder checks, verifies at every
    time up to [now + expires_delta], with the issued data and the expiry
    as payload, and is rejected with the 401 at every later time. *)
Theorem access_token_valid_until_expiry cfg now data expires_delta t :
  ALGORITHM cfg ∈ SUPPORTED → subject_ok data → unregistered data →
  expires_delta ≠ 0 →
  ∃ token,
    routes_jwt.create_access_token cfg now data (Some expires_delta)
    = Return token
    ∧ routes_jwt.verify_token cfg t token
      = if bool_decide (t ≤ now + expires_delta)
        then Return (<["exp" := VInt (now + expires_delta)]> data)
        else Raise credentials_exception.
Proof.
  intros Hsup Hsub Hplain Hnz.
  exists (signed cfg (<["exp" := VInt (now + expires_delta)]> data)). split.
  - unfold routes_jwt.create_access_token, jwt_encode.
    rewrite bool_decide_eq_true_2 by done.
    by destruct (Z.eqb_spec expires_delta 0).
  - by apply verify_token_signed.
Qed.

(** X1 holds of a twenty-minute token for ann, read one second before it
    expires. *)
Lemma access_token_valid_until_expiry_witness :
  ∃ token,
    routes_jwt.create_access_token cfg0 1000
      {[ "sub" := VStr "ann@example.com" ]} (Some 1200) = Return token
    ∧ routes_jwt.verify_token cfg0 2199 token
      = Return {[ "sub" := VStr "ann@example.com"; "exp" := VInt 2200 ]}.
Proof.
  destruct (access_token_valid_until_expiry cfg0 1000
              {[ "sub" := VStr "ann@example.com" ]} 1200 2199)
    as (token & Hcreate & Hverify).
  - apply SUPPORTED_cfg0.
  - apply subject_only.
  - apply subject_only.
  - lia.
  - exists token. split; [exact Hcreate|]. rewrite Hverify. reflexivity.
Defined.

(** X2. A lifetime of zero is taken as no lifetime given: the token is
    issued for fifteen minutes, verifies up to [now + 900] and is rejected
    after, for data whose subject, if any, is a string and that carries none
    of the other claims the decoder checks. *)
Theorem access_token_default_lifetime cfg now data expires_delta t :
  ALGORITHM cfg ∈ SUPPORTED → subject_ok data → unregistered data →
  expires_delta = None ∨ expires_delta = Some 0 →
  ∃ token,
    routes_jwt.create_access_token cfg now data expires_delta = Return token
    ∧ routes_jwt.verify_token cfg t token
      = if bool_decide (t ≤ now + 900)
        then Return (<["exp" := VInt (now + 900)]> data)
        else Raise credentials_exception.
Proof.
  intros Hsup Hsub Hplain Hdelta.
  exists (signed cfg (<["exp" := VInt (now + 900)]> data)). split.
  - unfold routes_jwt.create_access_token, jwt_encode.
    rewrite bool_decide_eq_true_2 by done.
    by destruct Hdelta as [-> | ->].
  - by apply verify_token_signed.
Qed.

(** X2 holds of a token asked for with a zero lifetime. *)
Lemma access_token_default_lifetime_witness :
  ∃ token,
    routes_jwt.create_access_token cfg0 1000
      {[ "sub" := VStr "ann@example.com" ]} (Some 0) = Return token
    ∧ routes_jwt.verify_token cfg0 1900 token
      = Return {[ "sub" := VStr "ann@example.com"; "exp" := VInt 1900 ]}.
Proof.
  destruct (access_token_default_lifetime cfg0 1000
              {[ "sub" := VStr "ann@example.com" ]} (Some 0) 1900)
    as (token & Hcreate & Hverify).
  - apply SUPPORTED_cfg0.
  - apply subject_only.
  - apply subject_only.
  - by right.
  - exists token. split; [exact Hcreate|]. rewrite Hverify. reflexivity.
Defined.

(** X3. A refresh token issued at [now] for an email is exchanged by
    POST /token/refresh, at every time [t] up to seven days later, for an
    access token of that same email expiring twenty minutes after [t]; after
    the seven days the exchange is refused with the 401. *)
Theorem refresh_token_exchange cfg now email t :
  ALGORITHM cfg ∈ SUPPORTED →
  ∃ refresh_token,
    routes_jwt.create_refresh_token cfg now {[ "sub" := VStr email ]}
    = Return refresh_token
    ∧ auth_procedures.refresh_access_token cfg t refresh_token
      = if bool_decide (t ≤ now + 604800)
        then Return (Dict [("access_token",
                            FToken (signed cfg
                                      (<["exp" := VInt (t + 1200)]>
                                         {[ "sub" := VStr email ]})));
                           ("token_type", FStr "bearer")])
        else Raise credentials_exception.
Proof.
  intros Hsup.
  exists (signed cfg (<["exp" := VInt (now + 604800)]> {[ "sub" := VStr email ]})).
  split.
  - unfold routes_jwt.create_refresh_token, jwt_encode.
    by rewrite bool_decide_eq_true_2.
  - unfold auth_procedures.refresh_access_token.
    rewrite verify_token_signed; [|done|apply subject_only..].
    case_bool_decide; [|done]. simpl.
    rewrite lookup_insert_ne, lookup_singleton_eq by done. simpl.
    unfold routes_jwt.create_access_token, jwt_encode.
    by rewrite bool_decide_eq_true_2.
Qed.

(** X3 holds of ann's refresh token, exchanged after six days. *)
Lemma refresh_token_exchange_witness :
  ∃ refresh_token,
    routes_jwt.create_refresh_token cfg0 1000 {[ "sub" := VStr "ann@example.com" ]}
    = Return refresh_token
    ∧ auth_procedures.refresh_access_token cfg0 519400 refresh_token
      = Return (Dict [("access_token",
                       FToken (signed cfg0 {[ "sub" := VStr "ann@example.com";
                                              "exp" := VInt 520600 ]}));
                      ("token_type", FStr "bearer")]).
Proof.
  destruct (refresh_token_exchange cfg0 1000 "ann@example.com" 519400)
    as (refresh_token & Hcreate & Hexchange).
  - by vm_compute; constructor.
  - exists refresh_token. split; [exact Hcreate|]. rewrite Hexchange.
    reflexivity.
Defined.

(** ** The auth gate (src/auth_files/auth_procedures.py) *)

(** What the gate answers to a well-signed, unexpired token with a string
    subject: the first row with that email, or the 401 when there is none;
    the session is as before. *)
Lemma get_current_user_well_signed cfg t token email s :
  well_signed cfg token → unexpired t token →
  other_claims_valid t (token_claims token) →
  token_claims token !! "sub" = Some (VStr email) →
  auth_procedures.get_current_user cfg t token s
  = (match List.find (email_is (VStr email)) (users (working s)) with
     | Some user => Return user
     | None => Raise credentials_exception
     end, s).
Proof.
  intros Hsig Hexp Hother Hsub. unfold auth_procedures.get_current_user.
  rewrite (jwt_decode_well_signed _ _ _ Hsig Hexp Hother);
    [|by unfold subject_ok; rewrite Hsub].
  exec. rewrite Hsub. simpl. by destruct (List.find _ _).
Qed.

(** X4. Soundness of the gate: when [get_current_user] returns a user, the
    token was signed with the server's key under the configured algorithm,
    is not expired, and its subject is the email of the returned user, who is
    the first row with that email; the session is left as it was. *)
Theorem get_current_user_sound cfg t token s user s' :
  auth_procedures.get_current_user cfg t token s = (Return user, s') →
  s' = s
  ∧ well_signed cfg token
  ∧ unexpired t token
  ∧ token_claims token !! "sub" = Some (VStr (User.email user))
  ∧ List.find (email_is (VStr (User.email user))) (users (working s))
    = Some user.
Proof.
  unfold auth_procedures.get_current_user. exec.
  destruct (jwt_decode _ _ _ _) as [payload|e] eqn:Hd; simpl;
    [|by destruct (is_JWTError e)].
  apply jwt_decode_Return in Hd as (alg & -> & Halg & Hsup & Hexp & _).
  apply list_elem_of_singleton in Halg as ->.
  destruct (payload !! "sub") as [sub|] eqn:Hsub; simpl; [|done].
  destruct sub as [|e|n]; simpl; [done| |];
    (destruct (List.find _ _) as [u|] eqn:Hfind; simpl; [|done]);
    intros [= -> <-];
    pose proof (find_some _ _ Hfind) as [_ Hmail];
    apply bool_decide_eq_true in Hmail; [|done].
  injection Hmail as <-.
  split_and!; [done | apply (signed_well_signed cfg payload Hsup)
              | done | done | done].
Qed.

(** X4 holds of ann's token. *)
Lemma get_current_user_sound_witness :
  token_claims token_ann !! "sub" = Some (VStr (User.email ann)).
Proof.
  apply (get_current_user_sound cfg0 1000 token_ann (open_session two_users)
           ann (open_session two_users)).
  reflexivity.
Defined.

(** X5. The gate does not tell token kinds apart: a refresh token issued
    for the email of a user is accepted by [get_current_user] as that user
    for its seven days, and an access token is exchanged by
    POST /token/refresh like a refresh token while it lasts. *)
Theorem token_kinds_interchangeable cfg now db user t expires_delta :
  ALGORITHM cfg ∈ SUPPORTED → expires_delta ≠ 0 →
  List.find (email_is (VStr (User.email user))) (users db) = Some user →
  ∃ refresh_token access_token refreshed,
    routes_jwt.create_refresh_token cfg now
      {[ "sub" := VStr (User.email user) ]} = Return refresh_token
    ∧ routes_jwt.create_access_token cfg now
        {[ "sub" := VStr (User.email user) ]} (Some expires_delta)
      = Return access_token
    ∧ (t ≤ now + 604800 →
       auth_procedures.get_current_user cfg t refresh_token (open_session db)
       = (Return user, open_session db))
    ∧ (t ≤ now + expires_delta →
       auth_procedures.refresh_access_token cfg t access_token
       = Return (Dict [("access_token", FToken refreshed);
                       ("token_type", FStr "bearer")])).
Proof.
  intros Hsup Hnz Hfind.
  destruct (subject_only (User.email user)) as [Hsub Hplain].
  exists (signed cfg (<["exp" := VInt (now + 604800)]>
                        {[ "sub" := VStr (User.email user) ]})),
         (signed cfg (<["exp" := VInt (now + expires_delta)]>
                        {[ "sub" := VStr (User.email user) ]})),
         (signed cfg (<["exp" := VInt (t + 1200)]>
                        {[ "sub" := VStr (User.email user) ]})).
  split_and!.
  - unfold routes_jwt.create_refresh_token, jwt_encode.
    by rewrite bool_decide_eq_true_2.
  - unfold routes_jwt.create_access_token, jwt_encode.
    rewrite bool_decide_eq_true_2 by done.
    by destruct (Z.eqb_spec expires_delta 0).
  - intros Ht.
    rewrite (get_current_user_well_signed cfg t _ (User.email user)).
    + simpl. by rewrite Hfind.
    + by apply signed_well_signed.
    + unfold unexpired, routes_jwt.REFRESH_TOKEN_EXPIRE_DAYS, days. simpl.
      rewrite lookup_insert_eq. exists (now + 604800). split; [done | lia].
    + unfold other_claims_valid. simpl.
      by rewrite !lookup_insert_ne, !lookup_singleton_ne.
    + simpl. by rewrite lookup_insert_ne, lookup_singleton_eq.
  - intros Ht. unfold auth_procedures.refresh_access_token.
    rewrite verify_token_signed by done.
    rewrite bool_decide_eq_true_2 by done. simpl.
    rewrite lookup_insert_ne, lookup_singleton_eq by done. simpl.
    unfold routes_jwt.create_access_token, jwt_encode.
    by rewrite bool_decide_eq_true_2.
Qed.

(** X5 holds of ann: her refresh token passes the gate on the sixth day. *)
Lemma token_kinds_interchangeable_witness :
  ∃ refresh_token,
    routes_jwt.create_refresh_token cfg0 1000
      {[ "sub" := VStr "ann@example.com" ]} = Return refresh_token
    ∧ auth_procedures.get_current_user cfg0 519400 refresh_token
        (open_session two_users)
      = (Return ann, open_session two_users).
Proof.
  destruct (token_kinds_interchangeable cfg0 1000 two_users ann 519400 1200)
    as (refresh_token & access_token & refreshed & Hrt & _ & Hgate & _).
  - by vm_compute; constructor.
  - lia.
  - reflexivity.
  - exists refresh_token. split; [exact Hrt|]. apply Hgate. lia.
Defined.

Lemma bind_Raise {A B} (m : M A) (f : A → M B) s e s' :
  m s = (Raise e, s') → (m ≫= f) s = (Raise e, s').
Proof. intros Hm. unfold mbind, M_bind. by rewrite Hm. Qed.

Lemma bind_Return {A B} (m : M A) (f : A → M B) s a s' :
  m s = (Return a, s') → (m ≫= f) s = f a s'.
Proof. intros Hm. unfold mbind, M_bind. by rewrite Hm. Qed.

Lemma run_bind_Raise {A B} (m : M A) (f : A → M B) db e :
  m (open_session db) = (Raise e, open_session db) →
  run (m ≫= f) db = (Raise e, db).
Proof. intros Hm. unfold run. by rewrite (bind_Raise _ _ _ _ _ Hm). Qed.

Lemma get_current_user_session cfg now token s r s' :
  auth_procedures.get_current_user cfg now token s = (r, s') → s' = s.
Proof.
  unfold auth_procedures.get_current_user. exec.
  destruct (jwt_decode _ _ _ _) as [p|e]; simpl.
  - destruct (p !! "sub") as [[]|]; simpl; try by intros [= <- <-].
    + destruct (List.find _ _); simpl; intros [= <- <-]; done.
    + destruct (List.find _ _); simpl; intros [= <- <-]; done.
  - destruct (is_JWTError e); simpl; by intros [= <- <-].
Qed.

Lemma active_user_Raise cfg now token s e s' :
  auth_procedures.get_current_user cfg now token s = (Raise e, s') →
  auth_procedures.active_user cfg now token s = (Raise e, s').
Proof. intros Hg. unfold auth_procedures.active_user. by apply bind_Raise. Qed.

Lemma active_user_Return cfg now token s user s' :
  auth_procedures.get_current_user cfg now token s = (Return user, s') →
  auth_procedures.active_user cfg now token s = (Return user, s').
Proof.
  intros Hg. unfold auth_procedures.active_user.
  by rewrite (bind_Return _ _ _ _ _ Hg).
Qed.

(** X6. No handler behind the gate runs without a resolved user: when
    [get_current_user] rejects the bearer token of a request to /secret,
    /user/avatar, a contact route of router_endpoints.py or one of the two
    routes of router_contacts.py that declare no rate limiter, the request
    fails with that same exception and the store is unchanged. The three
    routes of router_contacts.py that declare a rate limiter end in the
    limiter's exception, whatever the token, before the gate is asked. *)
Theorem gate_protects_handlers cfg (auth_service : AuthService) ilike now req
    token db e :
  bearer_of req = Some token →
  (auth_procedures.get_current_user cfg now token (open_session db)).1
  = Raise e →
  serve cfg ilike now req db = (Raise e, db)
  ∧ ∀ token' route, rate_limited route = true →
      serve cfg ilike now (Router_contacts token' route) db
      = (Raise (Exception "You must call FastAPILimiter.init in startup event of fastapi!"),
         db).
Proof.
  intros Hreq Hgate. split.
  - destruct (auth_procedures.get_current_user cfg now token (open_session db))
      as [r s] eqn:Hg.
    pose proof (get_current_user_session _ _ _ _ _ _ Hg) as ->.
    simpl in Hgate. subst r.
    pose proof (active_user_Raise _ _ _ _ _ _ Hg) as Ha.
    unfold serve.
    destruct req as [| | | | | | | | | | | | | | | | | | | | | | | | | |? []];
      simpl in Hreq; try done; injection Hreq as ->;
      unfold handle, plain, routes.read_secret, routes.update_avatar,
        router_endpoints.create_new_contact,
        router_endpoints.get_all_contacts_list, router_endpoints.get_contact,
        router_endpoints.update_contact, router_endpoints.delete_contact,
        router_endpoints.get_specific_contacts_list,
        router_endpoints.get_upcoming_birthdays,
        router_contacts.get_all_contact_list, router_contacts.get_contact;
      apply run_bind_Raise;
      repeat first [exact Hg | exact Ha | apply bind_Raise].
  - by intros token' [] Hlimited.
Qed.

(** X6 holds of a listing asked with an expired token. *)
Lemma gate_protects_handlers_witness :
  serve cfg0 (auth_service := helpers_auth_service cfg0 3000 "salt")
    (λ _ _, false) 3000 (Endpoints_list token_ann) ann_and_steve
  = (Raise credentials_exception, ann_and_steve).
Proof.
  apply (gate_protects_handlers cfg0 (helpers_auth_service cfg0 3000 "salt")
           (λ _ _, false) 3000 (Endpoints_list token_ann) token_ann);
    reflexivity.
Defined.

(** ** Signup and login (src/routes/routes.py) *)

Lemma find_email_None email (us : list User.t) :
  List.find (λ u, bool_decide (User.email u = email)) us = None
  ↔ email ∉ User.email <$> us.
Proof.
  induction us as [|u us IH]; simpl.
  - split; [intros _; apply not_elem_of_nil | done].
  - rewrite not_elem_of_cons. case_bool_decide as Hu.
    + split; [done | by intros [Hne _]].
    + rewrite IH. split; [by intros Hnot; split; [congruence|] | by intros [_ ?]].
Qed.

Lemma find_app_None {A} (p : A → bool) (l1 l2 : list A) :
  List.find p l1 = None → List.find p (l1 ++ l2) = List.find p l2.
Proof.
  induction l1 as [|a l1 IH]; simpl; [done|]. by destruct (p a).
Qed.

(** X8. After a signup through routes/routes.py with an email no row has,
    the new row is the last of the table, unconfirmed and without refresh
    token; a login with the same email and password then succeeds, with an
    access token that verifies to a payload whose subject is the email, and
    a login with any other password is refused with the 401. Contacts are
    untouched. *)
Theorem routes_signup_then_login cfg now email password salt db :
  ALGORITHM cfg ∈ SUPPORTED →
  email ∉ User.email <$> users db →
  ∃ user access_token refresh_token payload,
    run (routes.signup email password salt) db
    = (Return (Dict [("user", FUser user);
                     ("message", FStr "User signed up successfully!");
                     ("status_code", FInt 201)]),
       mkStore (users db ++ [user]) (contacts db))
    ∧ User.email user = email
    ∧ User.confirmed user = false
    ∧ User.refresh_token user = None
    ∧ run (routes.login cfg now (mkForm email password))
        (mkStore (users db ++ [user]) (contacts db))
      = (Return (Dict [("access_token", FToken access_token);
                       ("token_type", FStr "bearer");
                       ("refresh_token", FToken refresh_token);
                       ("message", FStr "User logged in successfully!");
                       ("status_code", FInt 200)]),
         mkStore (users db ++ [user]) (contacts db))
    ∧ routes_jwt.verify_token cfg now access_token = Return payload
    ∧ payload !! "sub" = Some (VStr email)
    ∧ ∀ wrong, wrong ≠ password →
        run (routes.login cfg now (mkForm email wrong))
          (mkStore (users db ++ [user]) (contacts db))
        = (Raise credentials_exception,
           mkStore (users db ++ [user]) (contacts db)).
Proof.
  intros Hsup Hfresh. apply find_email_None in Hfresh.
  set (user := User.mk (next_user_id (users db)) None email
                 (Bcrypt salt password) None false None).
  exists user,
    (signed cfg (<["exp" := VInt (now + 1200)]> {[ "sub" := VStr email ]})),
    (signed cfg (<["exp" := VInt (now + 604800)]> {[ "sub" := VStr email ]})),
    (<["exp" := VInt (now + 1200)]> {[ "sub" := VStr email ]}).
  assert (Hfind : List.find (λ u, bool_decide (User.email u = email))
                    (users db ++ [user]) = Some user).
  { rewrite find_app_None by done. simpl. by rewrite bool_decide_eq_true_2. }
  split_and!.
  - unfold routes.signup. exec. rewrite Hfresh. simpl.
    by rewrite last_snoc.
  - done.
  - done.
  - done.
  - unfold routes.login, auth_procedures.get_user. exec. rewrite Hfind. simpl.
    rewrite bool_decide_eq_true_2 by done. simpl.
    unfold routes_jwt.create_access_token, routes_jwt.create_refresh_token,
      jwt_encode.
    by rewrite bool_decide_eq_true_2.
  - rewrite verify_token_signed; [|done|apply subject_only..].
    by rewrite bool_decide_eq_true_2 by lia.
  - by rewrite lookup_insert_ne, lookup_singleton_eq.
  - intros wrong Hwrong.
    unfold routes.login, auth_procedures.get_user. exec. rewrite Hfind. simpl.
    by rewrite bool_decide_eq_false_2.
Qed.

(** X8 holds of eve, who signs up on the store of ann and bob. *)
Lemma routes_signup_then_login_witness :
  ∃ user,
    run (routes.signup "eve@example.com" "hunter2hunter2" "pepper") two_users
    = (Return (Dict [("user", FUser user);
                     ("message", FStr "User signed up successfully!");
                     ("status_code", FInt 201)]),
       mkStore (users two_users ++ [user]) (contacts two_users))
    ∧ User.id user = 3.
Proof.
  destruct (routes_signup_then_login cfg0 1000 "eve@example.com"
              "hunter2hunter2" "pepper" two_users)
    as (user & access & refresh & payload & Hsignup & _).
  - by vm_compute; constructor.
  - apply (bool_decide_unpack _). by vm_compute.
  - exists user. split; [exact Hsignup|].
    vm_compute in Hsignup. by injection Hsignup as <-.
Defined.

Lemma email_is_VStr email u :
  email_is (VStr email) u = bool_decide (User.email u = email).
Proof. unfold email_is. apply bool_decide_ext. split; congruence. Qed.

Lemma find_email_is email (us : list User.t) :
  List.find (email_is (VStr email)) us
  = List.find (λ u, bool_decide (User.email u = email)) us.
Proof.
  induction us as [|u us IH]; simpl; [done|].
  by rewrite email_is_VStr, IH.
Qed.

Lemma find_email_Some email (us : list User.t) u :
  List.find (λ u, bool_decide (User.email u = email)) us = Some u →
  email ∈ User.email <$> us.
Proof.
  intros Hfind. destruct (decide (email ∈ User.email <$> us)) as [|Hnot];
    [done|].
  apply find_email_None in Hnot. congruence.
Qed.

Lemma NoDup_emails_snoc (us : list User.t) u :
  NoDup (User.email <$> us) → User.email u ∉ User.email <$> us →
  NoDup (User.email <$> (us ++ [u])%list).
Proof.
  intros Hnd Hnot. rewrite fmap_app. apply NoDup_app. split_and!; [done| |].
  - intros e He Hin. apply list_elem_of_singleton in Hin. by subst.
  - apply NoDup_singleton.
Qed.

(** X9. The signup of routes/routes.py keeps emails unique: on a table
    whose emails are pairwise distinct it leaves them pairwise distinct,
    and for an email some row has it answers 409 "User with this email
    already exists" and leaves the store as it was. *)
Theorem routes_signup_keeps_emails_unique email password salt db r db' :
  NoDup (User.email <$> users db) →
  run (routes.signup email password salt) db = (r, db') →
  NoDup (User.email <$> users db')
  ∧ (email ∈ User.email <$> users db →
     r = Raise (HTTPException 409 "User with this email already exists" [])
     ∧ db' = db).
Proof.
  intros Hnd. unfold routes.signup. exec.
  destruct (List.find _ (users db)) as [u|] eqn:Hfind; simpl.
  - intros [= <- <-]. done.
  - intros [= <- <-]. simpl. apply find_email_None in Hfind. split.
    + by apply NoDup_emails_snoc.
    + done.
Qed.

(** X9 holds of a second signup with ann's email. *)
Lemma routes_signup_keeps_emails_unique_witness :
  run (routes.signup "ann@example.com" "another-pass" "pepper") two_users
  = (Raise (HTTPException 409 "User with this email already exists" []),
     two_users).
Proof.
  destruct (routes_signup_keeps_emails_unique "ann@example.com" "another-pass"
              "pepper" two_users
              (run (routes.signup "ann@example.com" "another-pass" "pepper")
                 two_users).1
              (run (routes.signup "ann@example.com" "another-pass" "pepper")
                 two_users).2) as [_ Hdup].
  - apply (bool_decide_unpack _). by vm_compute.
  - reflexivity.
  - destruct Hdup as [Hr Hdb].
    + apply (bool_decide_unpack _). by vm_compute.
    + rewrite (surjective_pairing (run _ _)). by rewrite Hr, Hdb.
Defined.

(** ** The handlers of src/routes/auth.py and the functions of
    src/repository/users.py *)

(** X10. Called with the module src/repository/users.py as their
    repository, the signup, the login and the request for a confirmation
    email of routes/auth.py raise TypeError at their first await, whatever
    the request and the auth service: [get_user_by_email] is a plain
    function, whose result cannot be awaited. With the None their
    parameters default to they raise AttributeError. In both cases nothing
    is written and nothing is queued. *)
Theorem auth_handlers_fail_at_first_await (auth_service : AuthService) db :
  (∀ body avatar,
     (∃ msg, run (auth.signup body avatar (Some users_module)
                    (Some auth_service)) db
             = (Raise (TypeError msg), db))
     ∧ run (auth.signup body avatar None None) db
       = (Raise (AttributeError
                   "'NoneType' object has no attribute 'get_user_by_email'"),
          db))
  ∧ (∀ body,
       (∃ msg, run (auth.login body (Some users_module) (Some auth_service)) db
               = (Raise (TypeError msg), db))
       ∧ run (auth.login body None None) db
         = (Raise (AttributeError
                     "'NoneType' object has no attribute 'get_user_by_email'"),
            db))
  ∧ (∀ email,
       (∃ msg, run (auth.request_email email (Some users_module)) db
               = (Raise (TypeError msg), db))
       ∧ run (auth.request_email email None) db
         = (Raise (AttributeError
                     "'NoneType' object has no attribute 'get_user_by_email'"),
            db)).
Proof.
  split_and!; intros; (split; [|done]);
    unfold auth.signup, auth.login, auth.request_email;
    lookup_attributes; unfold users.get_user_by_email; exec; by eauto.
Qed.

Lemma next_user_id_above (us : list User.t) u :
  u ∈ us → User.id u < next_user_id us.
Proof.
  unfold next_user_id. induction us as [|v us IH].
  - by intros ?%elem_of_nil.
  - rewrite fmap_cons. cbn [foldr].
    intros [->|Hin]%elem_of_cons; [lia|]. specialize (IH Hin). lia.
Qed.

(** X11. [create_user] of the users repository, called as the plain
    function it is with an email no row has, commits one new row, the last
    of the table, under a key above every key in use, unconfirmed, without
    refresh token, with the username, email, password and avatar it was
    given, and returns it; [get_user_by_email] then finds that row under
    the email. Contacts and the other rows are untouched. *)
Theorem create_user_then_lookup body password avatar db :
  um_email body ∉ User.email <$> users db →
  let user :=
    User.mk (next_user_id (users db)) (Some (um_username body)) (um_email body)
      password None false avatar in
  let db' := mkStore (users db ++ [user]) (contacts db) in
  run (users.create_user body password avatar) db = (Return user, db')
  ∧ (∀ u, u ∈ users db → User.id u < User.id user)
  ∧ run (users.get_user_by_email (VStr (um_email body))) db'
    = (Return (Some user), db').
Proof.
  intros Hfresh%find_email_None. simpl. split_and!.
  - unfold users.create_user. exec. by rewrite last_snoc.
  - intros u Hu. simpl. by apply next_user_id_above.
  - unfold users.get_user_by_email. exec.
    rewrite find_email_is, find_app_None by done. simpl.
    by rewrite bool_decide_eq_true_2.
Qed.

(** X11 holds of eve on the store of ann and bob. *)
Lemma create_user_then_lookup_witness :
  (run (users.create_user (mkUserModel "eve99" "eve@example.com" "hunter2hunter2")
          (Bcrypt "pepper" "hunter2hunter2") None) two_users).1
  = Return (User.mk 3 (Some "eve99") "eve@example.com"
              (Bcrypt "pepper" "hunter2hunter2") None false None).
Proof.
  destruct (create_user_then_lookup
              (mkUserModel "eve99" "eve@example.com" "hunter2hunter2")
              (Bcrypt "pepper" "hunter2hunter2") None two_users) as [Hrun _].
  - apply (bool_decide_unpack _). by vm_compute.
  - rewrite Hrun. reflexivity.
Defined.

(** ** Properties of every request *)

(** Unfolds the handler a request is served by. *)
Ltac unfold_handlers :=
  unfold handle, plain, auth_procedures.login_for_access_token,
    auth_procedures.refresh_access_token, auth_procedures.verify_user_email,
    auth_procedures.get_user, routes.signup, routes.login, routes.read_secret,
    routes.update_avatar, routes_jwt.update_user_avatar, auth.signup,
    auth.login, auth.confirmed_email, auth.request_email,
    users.create_user, users.update_token, users.confirm_email,
    users.update_avatar, users.get_user_by_email,
    repository_contacts.create_new_contact,
    repository_contacts.get_all_contacts_list, repository_contacts.get_contact,
    repository_contacts.update_contact, repository_contacts.delete_contact,
    router_endpoints.create_new_contact,
    router_endpoints.get_all_contacts_list, router_endpoints.get_contact,
    router_endpoints.update_contact, router_endpoints.delete_contact,
    router_endpoints.get_specific_contacts_list,
    router_endpoints.get_upcoming_birthdays,
    router_contacts.create_new_contact, router_contacts.get_all_contact_list,
    router_contacts.get_contact, router_contacts.update_contact,
    router_contacts.delete_contact, auth_procedures.active_user,
    auth_procedures.get_current_user, auth_procedures.get_active_user,
    auth_procedures.get_user, routes_jwt.verify_token,
    routes_jwt.update_user_avatar, getattr, RateLimiter, FastAPILimiter_redis,
    Path_gt_0;
  lookup_attributes.

(** Splits a request into its cases, one per handler. *)
Ltac each_request req :=
  destruct req as [| | | | | | | | | | | | | | | | | | | | | | | | | |? []].

(** X12. Requests are atomic on failure: whenever serving a request ends
    in an exception, whatever the request and the exception, the database
    is exactly as it was before the request. *)
Theorem failed_request_writes_nothing cfg (auth_service : AuthService) ilike
    now req db e db' :
  serve cfg ilike now req db = (Raise e, db') → db' = db.
Proof.
  unfold serve.
  each_request req; unfold_handlers; exec;
    repeat (case_inner; simpl); intros [= <- <-]; done.
Qed.

(** X12 holds of a contact posted under an id that is taken. *)
Lemma failed_request_writes_nothing_witness :
  (serve cfg0 (auth_service := helpers_auth_service cfg0 1000 "salt")
     (λ _ _, false) 1000 (Contacts_create john) ann_and_steve).2
  = ann_and_steve.
Proof.
  eapply (failed_request_writes_nothing cfg0
            (helpers_auth_service cfg0 1000 "salt") (λ _ _, false) 1000
            (Contacts_create john) ann_and_steve).
  reflexivity.
Defined.

(** X13. The two tables are written only by their own handlers: a request
    outside [writes_users] leaves the User table as it was, and a request
    outside [writes_contacts] leaves the Contact table as it was. So the
    reads, the two logins that persist nothing, POST /token, the refresh,
    /secret and /user/avatar change nothing at all. *)
Theorem tables_written_by_their_handlers cfg (auth_service : AuthService)
    ilike now req db r db' :
  serve cfg ilike now req db = (r, db') →
  (writes_users req = false → users db' = users db)
  ∧ (writes_contacts req = false → contacts db' = contacts db).
Proof.
  unfold serve.
  each_request req; unfold_handlers; exec;
    repeat (case_inner; simpl); intros [= <- <-]; done.
Qed.

(** X13 holds of a login through routes/routes.py. *)
Lemma tables_written_by_their_handlers_witness :
  users (serve cfg0 (auth_service := helpers_auth_service cfg0 1000 "salt")
           (λ _ _, false) 1000
           (Routes_login (mkForm "ann@example.com" "secret123")) two_users).2
  = users two_users.
Proof.
  eapply (tables_written_by_their_handlers cfg0
            (helpers_auth_service cfg0 1000 "salt") (λ _ _, false) 1000
            (Routes_login (mkForm "ann@example.com" "secret123")) two_users).
  - apply surjective_pairing.
  - reflexivity.
Defined.

Lemma identity_kept_refl us : identity_kept us us.
Proof. intros i u Hi. eauto 10. Qed.

Lemma identity_kept_app us new : identity_kept us (us ++ new).
Proof.
  intros i u Hi. exists u. split_and!; [|done..]. by apply lookup_app_l_Some.
Qed.

(** An assignment that writes none of the key, email, username and
    password. *)
Lemma identity_kept_row id (f : User.t → User.t) us :
  (∀ u, User.id (f u) = User.id u ∧ User.email (f u) = User.email u
        ∧ User.username (f u) = User.username u
        ∧ User.password (f u) = User.password u) →
  identity_kept us
    ((λ u, if bool_decide (User.id u = id) then f u else u) <$> us).
Proof.
  intros Hf i u Hi. rewrite list_lookup_fmap, Hi. simpl.
  case_bool_decide; [|eauto 10]. exists (f u). by destruct (Hf u) as (?&?&?&?).
Qed.

Lemma NoDup_emails_row id (f : User.t → User.t) (us : list User.t) :
  (∀ u, User.email (f u) = User.email u) →
  NoDup (User.email <$> us) →
  NoDup (User.email
           <$> ((λ u, if bool_decide (User.id u = id) then f u else u) <$> us)).
Proof.
  intros Hf Hnd. rewrite <- list_fmap_compose.
  erewrite list_fmap_ext; [exact Hnd|].
  intros i u _. simpl. by case_bool_decide.
Qed.

(** Closes a goal on the User table a request leaves. *)
Ltac users_leaf :=
  first
    [ done
    | apply identity_kept_refl
    | apply identity_kept_app
    | apply identity_kept_row; by intros []
    | apply NoDup_emails_row; [by intros [] | done]
    | apply NoDup_emails_snoc; [done|]; apply find_email_None;
      first [done | by rewrite <- find_email_is] ].

(** X14. No request rewrites an account's identity or removes an account:
    after any request every User row that was there is still there, in its
    place, with the same id, email, username and password; the only columns
    ever assigned are refresh_token, confirmed and avatar. *)
Theorem identity_columns_kept cfg (auth_service : AuthService) ilike now req
    db r db' :
  serve cfg ilike now req db = (r, db') →
  identity_kept (users db) (users db').
Proof.
  unfold serve.
  each_request req; unfold_handlers; exec;
    repeat (case_inner; simpl); intros [= <- <-]; simpl; users_leaf.
Qed.

(** X14 holds of bob's confirmation. *)
Lemma identity_columns_kept_witness :
  identity_kept (users two_users)
    (users (serve cfg0 (auth_service := helpers_auth_service cfg0 1000 "salt")
              (λ _ _, false) 1000 (GET_confirmed_email token_bob)
              two_users).2).
Proof.
  eapply (identity_columns_kept cfg0 (helpers_auth_service cfg0 1000 "salt")).
  apply surjective_pairing.
Defined.

(** X15. Emails stay unique under every request: on a User table whose
    emails are pairwise distinct, serving any request leaves them pairwise
    distinct, because the two signups look the email up before they add a
    row and nothing else adds a row or assigns an email. *)
Theorem emails_stay_unique cfg (auth_service : AuthService) ilike now req
    db r db' :
  NoDup (User.email <$> users db) →
  serve cfg ilike now req db = (r, db') →
  NoDup (User.email <$> users db').
Proof.
  intros Hnd. unfold serve.
  each_request req; unfold_handlers; exec;
    repeat (case_inner; simpl); intros [= <- <-]; simpl; users_leaf.
Qed.

(** X15 holds of eve's signup through routes/auth.py. *)
Lemma emails_stay_unique_witness :
  NoDup (User.email
           <$> users (serve cfg0
                        (auth_service := helpers_auth_service cfg0 1000 "salt")
                        (λ _ _, false) 1000
                        (Auth_signup
                           (mkUserModel "eve99" "eve@example.com"
                              "hunter2hunter2") None)
                        two_users).2).
Proof.
  eapply (emails_stay_unique cfg0 (helpers_auth_service cfg0 1000 "salt")
            (λ _ _, false) 1000 _ two_users).
  - apply (bool_decide_unpack _). by vm_compute.
  - apply surjective_pairing.
Defined.

Lemma keyed_by_id_insert cs c :
  keyed_by_id cs → keyed_by_id (<[Contact.id c := c]> cs).
Proof.
  intros Hcs key c'. rewrite lookup_insert. case_decide; [|by apply Hcs].
  by intros [= <-].
Qed.

Lemma keyed_by_id_alter cs key updated_contact :
  keyed_by_id cs → keyed_by_id (alter (assign_fields updated_contact) key cs).
Proof.
  intros Hcs k c. rewrite lookup_alter. case_decide; [|by apply Hcs].
  subst k. destruct (cs !! key) as [c0|] eqn:Hc0; simpl; [|done].
  intros [= <-]. simpl. by apply Hcs.
Qed.

Lemma keyed_by_id_delete cs key : keyed_by_id cs → keyed_by_id (delete key cs).
Proof.
  intros Hcs k c. rewrite lookup_delete. case_decide; [done | by apply Hcs].
Qed.

(** X16. Contacts keep their ids: if every contact row is stored under its
    own id, it is so after any request. A created row is stored under the id
    of its payload, an update assigns the six other columns and never the
    id, whatever contact_id the body carries, and a delete removes a row
    whole. *)
Theorem contacts_keyed_by_id cfg (auth_service : AuthService) ilike now req
    db r db' :
  keyed_by_id (contacts db) →
  serve cfg ilike now req db = (r, db') →
  keyed_by_id (contacts db').
Proof.
  intros Hkeys. unfold serve.
  each_request req; unfold_handlers; exec;
    repeat (case_inner; simpl); intros [= <- <-]; simpl;
    first [ done
          | by apply (keyed_by_id_insert _ (Contact_of _))
          | by apply keyed_by_id_alter
          | by apply keyed_by_id_delete ].
Qed.

(** X16 holds of an update of steve with a body that carries another id. *)
Lemma contacts_keyed_by_id_witness :
  keyed_by_id
    (contacts (serve cfg0 (auth_service := helpers_auth_service cfg0 1000 "salt")
                 (λ _ _, false) 1000
                 (Contacts_update 1
                    (UserContact.mk 7 "John" "Doe" "john.doe@example.com"
                       "123456789" (datetime 1990 1 1) None))
                 ann_and_steve).2).
Proof.
  eapply (contacts_keyed_by_id cfg0 (helpers_auth_service cfg0 1000 "salt")
            (λ _ _, false) 1000 _ ann_and_steve).
  - intros key c. unfold ann_and_steve. simpl.
    rewrite lookup_singleton. case_decide; [|done]. by intros [= <-].
  - apply surjective_pairing.
Defined.

(** ** Contact handlers (src/repository/contacts.py,
    src/routes/router_endpoints.py) *)

(** X17. Creating a contact under an id the store already holds fails with
    status 500 and overwrites nothing: the row stored under that id, and the
    whole store, are as before. *)
Theorem create_contact_taken_id db contact :
  is_Some (contacts db !! UserContact.contact_id contact) →
  ∃ detail,
    run (repository_contacts.create_new_contact contact) db
    = (Raise (HTTPException 500 detail []), db).
Proof.
  intros [row Hrow].
  unfold repository_contacts.create_new_contact. exec.
  destruct (INTEGER _); simpl; [rewrite Hrow|]; by eexists.
Qed.

(** X17 holds of john posted under steve's id. *)
Lemma create_contact_taken_id_witness :
  ∃ detail,
    run (repository_contacts.create_new_contact john) ann_and_steve
    = (Raise (HTTPException 500 detail []), ann_and_steve).
Proof.
  apply (create_contact_taken_id ann_and_steve john).
  by exists (Contact_of steve).
Defined.

(** X18. Updating a contact the store holds succeeds and replaces its six
    data columns by those of the body; the row keeps its id, the contact_id
    of the body is not looked at, every other row and the User table are
    untouched, and [get_contact] on the id then returns the new row. *)
Theorem update_contact_present db contact_id old updated_contact :
  contacts db !! contact_id = Some old →
  let row := assign_fields updated_contact old in
  let db' := mkStore (users db) (<[contact_id := row]> (contacts db)) in
  run (repository_contacts.update_contact contact_id updated_contact) db
  = (Return (Dict [("message", FStr "Success!")]), db')
  ∧ run (repository_contacts.get_contact contact_id) db'
    = (Return (ContactRow row), db')
  ∧ Contact.id row = Contact.id old
  ∧ Contact.first_name row = UserContact.first_name updated_contact
  ∧ Contact.birth_date row = UserContact.birth_date updated_contact
  ∧ (∀ key, key ≠ contact_id → contacts db' !! key = contacts db !! key).
Proof.
  intros Hold. simpl. split_and!; try done.
  - unfold repository_contacts.update_contact. exec. rewrite Hold. simpl.
    do 3 f_equal. apply map_eq. intros key. rewrite lookup_alter, lookup_insert.
    case_decide; [subst; by rewrite Hold | done].
  - unfold repository_contacts.get_contact. exec.
    by rewrite lookup_insert_eq.
  - intros key Hkey. by rewrite lookup_insert_ne.
Qed.

(** X18 holds of steve updated with john's data. *)
Lemma update_contact_present_witness :
  run (repository_contacts.update_contact 1 john) ann_and_steve
  = (Return (Dict [("message", FStr "Success!")]),
     mkStore [ann] {[ 1 := Contact_of john ]}).
Proof.
  destruct (update_contact_present ann_and_steve 1 (Contact_of steve) john)
    as (Hupdate & _).
  - reflexivity.
  - rewrite Hupdate. reflexivity.
Defined.

(** X19. An update is idempotent: sending the same body to the same id a
    second time succeeds again and leaves the store as the first update
    made it. *)
Theorem update_contact_idempotent db contact_id updated_contact r db' :
  run (repository_contacts.update_contact contact_id updated_contact) db
  = (Return r, db') →
  run (repository_contacts.update_contact contact_id updated_contact) db'
  = (Return r, db').
Proof.
  unfold repository_contacts.update_contact. exec.
  destruct (contacts db !! contact_id) as [old|] eqn:Hold; simpl; [|done].
  intros [= <- <-]. simpl. rewrite lookup_alter_eq, Hold. simpl.
  do 2 f_equal. apply map_eq. intros key.
  destruct (decide (contact_id = key)) as [->|Hne].
  - rewrite !lookup_alter_eq, Hold. reflexivity.
  - by rewrite !lookup_alter_ne.
Qed.

(** X19 holds of steve updated twice with john's data. *)
Lemma update_contact_idempotent_witness :
  run (repository_contacts.update_contact 1 john)
    (mkStore [ann] {[ 1 := Contact_of john ]})
  = (Return (Dict [("message", FStr "Success!")]),
     mkStore [ann] {[ 1 := Contact_of john ]}).
Proof.
  apply (update_contact_idempotent ann_and_steve 1 john). reflexivity.
Defined.


(** X21. Creating a contact under a free id that fits the INTEGER key and
    then deleting that id gives back the store one started from. *)
Theorem create_then_delete db contact :
  contacts db !! UserContact.contact_id contact = None →
  INTEGER (UserContact.contact_id contact) = true →
  ∃ db1,
    run (repository_contacts.create_new_contact contact) db
    = (Return (ContactBody contact), db1)
    ∧ run (repository_contacts.delete_contact (UserContact.contact_id contact))
        db1
      = (Return (Dict [("message", FStr "Success!")]), db).
Proof.
  intros Hfree Hfits. eexists. split.
  - unfold repository_contacts.create_new_contact. exec.
    by rewrite Hfits, Hfree.
  - unfold repository_contacts.delete_contact. exec.
    rewrite lookup_insert_eq. simpl. rewrite delete_insert_eq.
    rewrite delete_id by done. by destruct db.
Qed.

(** X21 holds of steve created on the empty store. *)
Lemma create_then_delete_witness :
  ∃ db1,
    run (repository_contacts.create_new_contact steve) no_rows
    = (Return (ContactBody steve), db1)
    ∧ run (repository_contacts.delete_contact 1) db1
      = (Return (Dict [("message", FStr "Success!")]), no_rows).
Proof. apply (create_then_delete no_rows steve); reflexivity. Defined.

Lemma filter_all {A} (l : list A) : List.filter (λ _, true) l = l.
Proof. induction l as [|a l IH]; simpl; [done | by rewrite IH]. Qed.

Lemma elem_of_rows (cs : gmap Z Contact.t) c :
  c ∈ (map_to_list cs).*2 ↔ ∃ key, cs !! key = Some c.
Proof.
  rewrite list_elem_of_fmap. split.
  - intros ([key c'] & -> & Hin). exists key. by apply elem_of_map_to_list.
  - intros [key Hkey]. exists (key, c). split; [done|].
    by apply elem_of_map_to_list.
Qed.

Lemma active_user_passes cfg now token db user :
  (run (auth_procedures.active_user cfg now token) db).1 = Return user →
  auth_procedures.active_user cfg now token (open_session db)
  = (Return user, open_session db).
Proof.
  unfold run.
  destruct (auth_procedures.active_user cfg now token (open_session db))
    as [r s] eqn:Hg.
  apply active_user_session in Hg as ->. simpl. by intros ->.
Qed.

(** X22. For a request that passes the auth gate, the search handler with
    no search term, or an empty one, returns every stored contact, each
    once; with a term it returns exactly the stored contacts whose first
    name, last name or email matches the pattern "%term%" under the
    database's case-insensitive LIKE. It never writes. *)
Theorem search_contacts cfg now token user ilike search db :
  (run (auth_procedures.active_user cfg now token) db).1 = Return user →
  ∃ found,
    run (router_endpoints.get_specific_contacts_list cfg now token ilike search)
      db
    = (Return (ContactRows found), db)
    ∧ (search = None ∨ search = Some "" →
       found = (map_to_list (contacts db)).*2
       ∧ length found = size (contacts db))
    ∧ (∀ term, search = Some term → term ≠ "" →
       ∀ c, c ∈ found ↔
            (∃ key, contacts db !! key = Some c)
            ∧ (ilike ("%" +:+ term +:+ "%") (Contact.first_name c) = true
               ∨ ilike ("%" +:+ term +:+ "%") (Contact.last_name c) = true
               ∨ ilike ("%" +:+ term +:+ "%") (Contact.email c) = true)).
Proof.
  intros Hgate%active_user_passes.
  unfold router_endpoints.get_specific_contacts_list, run.
  rewrite (bind_Return _ _ _ _ _ Hgate).
  destruct search as [term|]; [destruct (decide (term = "")) as [->|Hterm]|].
  - exec. rewrite filter_all. eexists.
    split_and!; [done| |by intros term [= <-] ?].
    intros _. split; [done|]. by rewrite length_fmap, length_map_to_list.
  - rewrite bool_decide_eq_false_2 by done. exec. eexists.
    split_and!; [done| |].
    + by intros [|[=]].
    + intros term' [= <-] _ c.
      rewrite list_elem_of_In, filter_In, <- list_elem_of_In, elem_of_rows.
      rewrite !orb_true_iff. tauto.
  - exec. rewrite filter_all. eexists. split_and!; [done| |done].
    intros _. split; [done|]. by rewrite length_fmap, length_map_to_list.
Qed.

(** X22 holds of a search without term on the store of ann and steve. *)
Lemma search_contacts_witness :
  run (router_endpoints.get_specific_contacts_list cfg0 1000 token_ann
         (λ _ _, false) None) ann_and_steve
  = (Return (ContactRows [Contact_of steve]), ann_and_steve).
Proof.
  destruct (search_contacts cfg0 1000 token_ann ann (λ _ _, false) None
              ann_and_steve eq_refl) as (found & Hrun & Hall & _).
  rewrite Hrun. destruct (Hall (or_introl eq_refl)) as [-> _]. reflexivity.
Defined.

(** X23. Behind the gate the contact handlers of router_endpoints.py do to
    the store what the handlers of repository/contacts.py do: for a request
    that passes the gate, creating, reading, updating and deleting through
    either module fail with the same exception or succeed together, and
    leave the same store. *)
Theorem endpoints_act_as_repository cfg now token user db contact contact_id :
  (run (auth_procedures.active_user cfg now token) db).1 = Return user →
  let same (endpoint repository : result response * Store) :=
    endpoint.2 = repository.2
    ∧ match endpoint.1, repository.1 with
      | Return _, Return _ => True
      | Raise e1, Raise e2 => e1 = e2
      | _, _ => False
      end in
  same (run (router_endpoints.create_new_contact cfg now token contact) db)
       (run (repository_contacts.create_new_contact contact) db)
  ∧ run (router_endpoints.get_contact cfg now token contact_id) db
    = run (repository_contacts.get_contact contact_id) db
  ∧ same (run (router_endpoints.update_contact cfg now token contact_id contact)
            db)
         (run (repository_contacts.update_contact contact_id contact) db)
  ∧ same (run (router_endpoints.delete_contact cfg now token contact_id) db)
         (run (repository_contacts.delete_contact contact_id) db).
Proof.
  intros Hgate%active_user_passes. simpl.
  unfold router_endpoints.create_new_contact, router_endpoints.get_contact,
    router_endpoints.update_contact, router_endpoints.delete_contact,
    repository_contacts.create_new_contact, repository_contacts.get_contact,
    repository_contacts.update_contact, repository_contacts.delete_contact,
    run.
  rewrite !(bind_Return _ _ _ _ _ Hgate). exec.
  destruct (INTEGER (UserContact.contact_id contact));
    destruct (contacts db !! UserContact.contact_id contact);
    destruct (contacts db !! contact_id); simpl; done.
Qed.

(** X23 holds of ann updating steve. *)
Lemma endpoints_act_as_repository_witness :
  (run (router_endpoints.update_contact cfg0 1000 token_ann 1 john)
     ann_and_steve).2
  = (run (repository_contacts.update_contact 1 john) ann_and_steve).2.
Proof.
  destruct (endpoints_act_as_repository cfg0 1000 token_ann ann ann_and_steve
              john 1 eq_refl) as (_ & _ & [Hsame _] & _).
  exact Hsame.
Defined.

(** ** Calls that cannot return, and a missing subject *)

(** X24. Three groups of handlers never succeed. POST /token calls
    [get_user] without a session and always fails with AttributeError,
    whatever the credentials; PUT /user/avatar calls [update_user_avatar]
    without a session, and every route of router_contacts.py calls its
    repository function with too many arguments, so they fail at a
    dependency or at that call. None of them writes. *)
Theorem miswired_handlers_fail cfg (auth_service : AuthService) ilike now req
    db :
  miswired req = true →
  (∃ e, serve cfg ilike now req db = (Raise e, db))
  ∧ ∀ form_data,
      req = POST_token form_data →
      serve cfg ilike now req db
      = (Raise (AttributeError "'Depends' object has no attribute 'query'"), db).
Proof.
  intros Hreq. split.
  - unfold serve.
    each_request req; try done; unfold_handlers; exec;
      repeat (case_inner; simpl); eauto.
  - by intros form_data ->.
Qed.

(** X24 holds of ann asking for a token with her right password. *)
Lemma miswired_handlers_fail_witness :
  serve cfg0 (auth_service := helpers_auth_service cfg0 1000 "salt")
    (λ _ _, false) 1000 (POST_token (mkForm "ann@example.com" "secret123"))
    two_users
  = (Raise (AttributeError "'Depends' object has no attribute 'query'"),
     two_users).
Proof.
  eapply (miswired_handlers_fail cfg0 (helpers_auth_service cfg0 1000 "salt")
            (λ _ _, false) 1000
            (POST_token (mkForm "ann@example.com" "secret123")) two_users);
    reflexivity.
Defined.

(** X25. A well-signed, unexpired token without "sub", whose other
    registered claims pass the decoder's checks, is refused by
    POST /token/refresh with the 401, which reads the claim with [get]; in
    [get_current_user] and [verify_user_email], which index the payload, it
    raises KeyError instead, which the except clause for JWTError lets
    pass, so the request ends with status 500. Nothing is written. *)
Theorem token_without_subject cfg now token :
  well_signed cfg token → unexpired now token →
  other_claims_valid now (token_claims token) →
  token_claims token !! "sub" = None →
  auth_procedures.refresh_access_token cfg now token
  = Raise credentials_exception
  ∧ (∀ s, auth_procedures.get_current_user cfg now token s
          = (Raise (KeyError "sub"), s))
  ∧ (∀ s, auth_procedures.verify_user_email cfg now token s
          = (Raise (KeyError "sub"), s))
  ∧ response_status (KeyError "sub") = 500.
Proof.
  intros Hsig Hexp Hother Hsub.
  pose proof (jwt_decode_well_signed cfg now token Hsig Hexp Hother) as Hd.
  unfold subject_ok in Hd. rewrite Hsub in Hd. specialize (Hd I).
  split_and!; [| | |done].
  - unfold auth_procedures.refresh_access_token, routes_jwt.verify_token.
    rewrite Hd. simpl. by rewrite Hsub.
  - intros s. unfold auth_procedures.get_current_user. rewrite Hd.
    exec. by rewrite Hsub.
  - intros s. unfold auth_procedures.verify_user_email. rewrite Hd.
    exec. by rewrite Hsub.
Qed.

(** X25 holds of the token without subject. *)
Lemma token_without_subject_witness :
  auth_procedures.refresh_access_token cfg0 1000 token_without_sub
  = Raise credentials_exception.
Proof.
  apply (token_without_subject cfg0 1000 token_without_sub).
  - apply well_signed_cfg0.
  - by vm_compute; exists 2000.
  - by vm_compute.
  - reflexivity.
Defined.

(** ** Avatars (src/repository/users.py, src/routes/jwt.py) *)

(** X27. The coroutine [update_avatar] of the users repository raises
    TypeError for every email, known or not, at its await of what
    [get_user_by_email] returned, and commits no avatar.
    [update_user_avatar] of routes/jwt.py, given the session, commits the
    url into the avatar column of the row of the given id, leaves every
    other row as it was, and answers 404 "User not found" for an id no row
    has. *)
Theorem avatar_updates db url :
  (∀ email,
     ∃ msg, run (users.update_avatar email url) db = (Raise (TypeError msg), db))
  ∧ (∀ user_id,
       match List.find (λ u, bool_decide (User.id u = user_id)) (users db) with
       | Some user =>
           run (routes_jwt.update_user_avatar user_id url Injected) db
           = (Return (),
              mkStore ((λ u, if bool_decide (User.id u = User.id user)
                             then User.set_avatar (Some url) u else u)
                         <$> users db) (contacts db))
       | None =>
           run (routes_jwt.update_user_avatar user_id url Injected) db
           = (Raise (HTTPException 404 "User not found" []), db)
       end).
Proof.
  split.
  - intros email. unfold users.update_avatar, users.get_user_by_email. exec.
    by eauto.
  - intros user_id. unfold routes_jwt.update_user_avatar. exec.
    by destruct (List.find _ (users db)).
Qed.
